(** * Performative Detector: gesture classifiers, debounce loop and Spotify trigger

  A shallow embedding of [performative_detector.py] and
  [spotify_controller.py].

  Python [float]s are IEEE-754 binary64 numbers and are embedded as Rocq's
  primitive floats, so a literal such as [0.08] denotes the same double in
  both languages and every comparison behaves as in the source (including on
  NaN).  Python's [None] is [option], a raised exception is the [Raise]
  branch of [Py.Exc], and the objects mutated by the methods are records
  passed in and returned. *)

From Stdlib Require Import ZArith List Bool String Uint63 Floats Lia.
Import ListNotations.

Set Warnings "-inexact-float".

(* ===================================================================== *)
(** ** Python and NumPy primitives used by the two files *)
(* ===================================================================== *)

Module Py.

Inductive Exception : Set :=
| IndexError
| ValueError
| AttributeError
| SpotifyException
| OSError.

(** The outcome of evaluating an expression that may raise. *)
Inductive Exc (A : Type) : Type :=
| Ok (a : A)
| Raise (e : Exception).
Arguments Ok {A} a.
Arguments Raise {A} e.

Definition bind {A B : Type} (m : Exc A) (k : A -> Exc B) : Exc B :=
  match m with
  | Ok a => k a
  | Raise e => Raise e
  end.

(** [l[i]] for a constant, non-negative [i]. *)
Definition getitem {A : Type} (l : list A) (i : nat) : Exc A :=
  match nth_error l i with
  | Some a => Ok a
  | None => Raise IndexError
  end.

(** [a, b = t[:2]]: the slice never raises, the unpacking raises unless it
    yields exactly two items. *)
Definition unpack2 {A : Type} (t : list A) : Exc (A * A) :=
  match firstn 2 t with
  | [a; b] => Ok (a, b)
  | _ => Raise ValueError
  end.

(** Truth value of [None]-or-list and of [None]-or-float operands of [if]. *)
Definition truthy_list {A : Type} (o : option (list A)) : bool :=
  match o with
  | Some (_ :: _) => true
  | _ => false
  end.

Definition truthy_float (o : option float) : bool :=
  match o with
  | Some f => negb (f =? 0)%float
  | None => false
  end.

(** [not s] for [s] a [str] or [None]. *)
Definition falsy_str (o : option string) : bool :=
  match o with
  | Some s => (String.length s =? 0)%nat
  | None => true
  end.

Definition is_some {A : Type} (o : option A) : bool :=
  match o with
  | Some _ => true
  | None => false
  end.

(** Float comparisons, written as in the source. *)
Definition lt (a b : float) : bool := (a <? b)%float.
Definition gt (a b : float) : bool := (b <? a)%float.
Definition ge (a b : float) : bool := (b <=? a)%float.

(** [a ** 2], taken as the product of [a] with itself. *)
Definition pow2 (a : float) : float := (a * a)%float.

Definition float_of_len (n : nat) : float :=
  PrimFloat.of_uint63 (Uint63.of_Z (Z.of_nat n)).

(** [np.mean] of a list of floats: their sum over their number; the mean of
    the empty list is [0/0], NaN, as in NumPy.  The sum is accumulated left to
    right; NumPy may add the same terms in another order, which can change the
    last bits of the result and nothing that is stated below. *)
Definition np_mean (xs : list float) : float :=
  (fold_left PrimFloat.add xs 0 / float_of_len (List.length xs))%float.

Definition np_sqrt (a : float) : float := PrimFloat.sqrt a.

End Py.

Import Py.

Declare Scope exc_scope.
Delimit Scope exc_scope with exc.
Notation "x <- m ;; k" := (Py.bind m (fun x => k))
(at level 61, m at next level, right associativity) : exc_scope.
Notation "' p <- m ;; k" := (Py.bind m (fun p => k))
(at level 61, p pattern, m at next level, right associativity) : exc_scope.

(* ===================================================================== *)
(** ** External collaborators: MediaPipe results and the Spotify Web API *)
(* ===================================================================== *)

Module mp.

(** One tracked point; only the two coordinates the detector reads. *)
Record NormalizedLandmark : Set := { x : float; y : float }.

(** One detected hand: [hand_landmarks.landmark] is its point sequence. *)
Record NormalizedLandmarkList : Set :=
  { landmark : list NormalizedLandmark }.

End mp.

Module spotipy.

(** The part of the [current_playback()] answer the controller inspects. *)
Record Track : Set := { uri : string }.
Record Playback : Set := { item : option Track; is_playing : bool }.

Record Device : Set := { id : string; name : string }.

(** The client object held in [self.sp]. *)
Inductive Spotify : Set := Client.

(** Requests sent through the client. *)
Inductive Request : Set :=
| current_playback
| start_playback (device_id : option string) (uris : list string)
| pause_playback (device_id : option string)
| devices.

(** How the outside world answers during one controller method call: each
    request either returns or raises, and so does spawning [osascript]. *)
Record Remote : Type :=
  { current_playback_reply : Exc (option Playback);
    start_playback_reply : Exc unit;
    pause_playback_reply : Exc unit;
    devices_reply : Exc (list Device);
    popen_reply : Exc unit }.

End spotipy.

(** Observable effects, in the order they happen. *)
Inductive Effect : Set :=
| call_play_juna                       (* [play_juna] was entered *)
| thread_start                         (* a daemon thread running [_play_juna_async] *)
| request (r : spotipy.Request)        (* a request issued through [self.sp] *)
| popen_osascript.                     (* [subprocess.Popen(['osascript', ...])] *)

Definition is_call_play_juna (e : Effect) : bool :=
match e with call_play_juna => true | _ => false end.

Definition is_start_playback (e : Effect) : bool :=
match e with request (spotipy.start_playback _ _) => true | _ => false end.

Definition is_pause_playback (e : Effect) : bool :=
match e with request (spotipy.pause_playback _) => true | _ => false end.

Definition is_request (e : Effect) : bool :=
match e with request _ => true | _ => false end.

Definition count (p : Effect -> bool) (l : list Effect) : nat :=
List.length (filter p l).


(* ===================================================================== *)
(** ** spotify_controller.py *)
(* ===================================================================== *)

Module SpotifyController.

Import spotipy.

(** The attributes of a [SpotifyController] instance. *)
Record t : Set :=
  { sp : option Spotify;
    device_id : option string;
    is_playing : bool;
    current_track_uri : option string;
    target_track_uri : string;
    window_opened : bool }.

Definition set_sp (v : option Spotify) (self : t) : t :=
  {| sp := v; device_id := device_id self; is_playing := is_playing self;
     current_track_uri := current_track_uri self;
     target_track_uri := target_track_uri self;
     window_opened := window_opened self |}.

Definition set_device_id (v : option string) (self : t) : t :=
  {| sp := sp self; device_id := v; is_playing := is_playing self;
     current_track_uri := current_track_uri self;
     target_track_uri := target_track_uri self;
     window_opened := window_opened self |}.

Definition set_is_playing (v : bool) (self : t) : t :=
  {| sp := sp self; device_id := device_id self; is_playing := v;
     current_track_uri := current_track_uri self;
     target_track_uri := target_track_uri self;
     window_opened := window_opened self |}.

Definition set_window_opened (v : bool) (self : t) : t :=
  {| sp := sp self; device_id := device_id self; is_playing := is_playing self;
     current_track_uri := current_track_uri self;
     target_track_uri := target_track_uri self;
     window_opened := v |}.

(** Juna by Clairo. *)
Definition juna : string := "spotify:track:2mWfVxEo4xZYDaz0v7hYrN".

(** The two variables [_initialize_spotify] reads with [os.getenv]. *)
Record Environ : Set :=
  { SPOTIFY_CLIENT_ID : option string;
    SPOTIFY_CLIENT_SECRET : option string }.

Definition _initialize_spotify (env : Environ) (r : Remote) (self : t)
  : t * list Effect :=
  if falsy_str (SPOTIFY_CLIENT_ID env) || falsy_str (SPOTIFY_CLIENT_SECRET env)
  then (self, [])
  else
    let self1 := set_sp (Some Client) self in
    match devices_reply r with
    | Ok (d :: _) => (set_device_id (Some (id d)) self1, [request devices])
    | Ok [] => (self1, [request devices])
    | Raise _ => (set_sp None self1, [request devices])
    end.

Definition __init__ (env : Environ) (r : Remote) : t * list Effect :=
  _initialize_spotify env r
    {| sp := None; device_id := None; is_playing := false;
       current_track_uri := None; target_track_uri := juna;
       window_opened := false |}.

Definition show_spotify_window (r : Remote) (self : t) : t * list Effect :=
  if window_opened self then (self, [])
  else
    match popen_reply r with
    | Ok _ => (set_window_opened true self, [popen_osascript])
    | Raise _ => (self, [popen_osascript])
    end.

(** The body of the background thread.  Everything is inside one
    [try ... except Exception], so a raising request ends the attempt with
    [False]; calling a method on [self.sp = None] raises as well. *)
Definition _play_juna_async (r : Remote) (self : t) : bool * t * list Effect :=
  match sp self with
  | None => (false, self, [])
  | Some _ =>
    match current_playback_reply r with
    | Raise _ => (false, self, [request current_playback])
    | Ok current =>
      let already :=
        match current with
        | Some cur =>
          match item cur with
          | Some it =>
            String.eqb (uri it) (target_track_uri self) && spotipy.is_playing cur
          | None => false
          end
        | None => false
        end in
      if already then (true, self, [request current_playback])
      else
        let start :=
          request (start_playback (device_id self) [target_track_uri self]) in
        match start_playback_reply r with
        | Raise _ => (false, self, [request current_playback; start])
        | Ok _ =>
          let self1 := set_is_playing true self in
          let '(self2, shown) := show_spotify_window r self1 in
          (true, self2, [request current_playback; start] ++ shown)
        end
    end
  end.

(** [play_juna] only starts the thread; what it returns is fixed before the
    thread runs. *)
Definition play_juna (self : t) : bool * list Effect :=
  match sp self with
  | None => (false, [call_play_juna])
  | Some _ => (true, [call_play_juna; thread_start])
  end.

(** [play_juna] with the started thread run to completion against [r]: the
    value the caller got, the value the thread's target returned (dropped by
    [threading.Thread]) if a thread was started, the controller and the
    effects. *)
Definition play_juna_joined (r : Remote) (self : t)
  : bool * option bool * t * list Effect :=
  let '(ret, eff) := play_juna self in
  if existsb (fun e => match e with thread_start => true | _ => false end) eff
  then
    let '(done, self1, eff1) := _play_juna_async r self in
    (ret, Some done, self1, eff ++ eff1)
  else (ret, None, self, eff).

Definition pause (r : Remote) (self : t) : t * list Effect :=
  if negb (is_some (sp self)) || negb (is_playing self) then (self, [])
  else
    match pause_playback_reply r with
    | Ok _ =>
      (set_is_playing false self, [request (pause_playback (device_id self))])
    | Raise _ => (self, [request (pause_playback (device_id self))])
    end.

Definition is_spotify_available (self : t) : bool :=
  is_some (sp self) && is_some (device_id self).

End SpotifyController.

(* ===================================================================== *)
(** ** performative_detector.py *)
(* ===================================================================== *)

Module PerformativeDetector.

Import mp.
Local Open Scope float_scope.

(** The attributes of a [PerformativeDetector] the main loop reads or
    writes. *)
Record t : Set :=
  { spotify : SpotifyController.t;
    is_holding : bool;
    holding_start_time : option float;
    holding_duration_threshold : float;
    spotify_mode : bool;
    spotify_mode_start_time : option float;
    face_cam_delay : float;
    face_cam_shown : bool;
    force_top_counter : Z }.

Definition __init__ (controller : SpotifyController.t) : t :=
  {| spotify := controller;
     is_holding := false;
     holding_start_time := None;
     holding_duration_threshold := 0.2;
     spotify_mode := false;
     spotify_mode_start_time := None;
     face_cam_delay := 1.0;
     face_cam_shown := false;
     force_top_counter := 0%Z |}.

Definition set_holding_start_time (v : option float) (self : t) : t :=
  {| spotify := spotify self; is_holding := is_holding self;
     holding_start_time := v;
     holding_duration_threshold := holding_duration_threshold self;
     spotify_mode := spotify_mode self;
     spotify_mode_start_time := spotify_mode_start_time self;
     face_cam_delay := face_cam_delay self;
     face_cam_shown := face_cam_shown self;
     force_top_counter := force_top_counter self |}.

Definition set_is_holding (v : bool) (self : t) : t :=
  {| spotify := spotify self; is_holding := v;
     holding_start_time := holding_start_time self;
     holding_duration_threshold := holding_duration_threshold self;
     spotify_mode := spotify_mode self;
     spotify_mode_start_time := spotify_mode_start_time self;
     face_cam_delay := face_cam_delay self;
     face_cam_shown := face_cam_shown self;
     force_top_counter := force_top_counter self |}.

Definition set_spotify_mode (v : bool) (self : t) : t :=
  {| spotify := spotify self; is_holding := is_holding self;
     holding_start_time := holding_start_time self;
     holding_duration_threshold := holding_duration_threshold self;
     spotify_mode := v;
     spotify_mode_start_time := spotify_mode_start_time self;
     face_cam_delay := face_cam_delay self;
     face_cam_shown := face_cam_shown self;
     force_top_counter := force_top_counter self |}.

Definition set_spotify_mode_start_time (v : option float) (self : t) : t :=
  {| spotify := spotify self; is_holding := is_holding self;
     holding_start_time := holding_start_time self;
     holding_duration_threshold := holding_duration_threshold self;
     spotify_mode := spotify_mode self;
     spotify_mode_start_time := v;
     face_cam_delay := face_cam_delay self;
     face_cam_shown := face_cam_shown self;
     force_top_counter := force_top_counter self |}.

Definition set_face_cam_shown (v : bool) (self : t) : t :=
  {| spotify := spotify self; is_holding := is_holding self;
     holding_start_time := holding_start_time self;
     holding_duration_threshold := holding_duration_threshold self;
     spotify_mode := spotify_mode self;
     spotify_mode_start_time := spotify_mode_start_time self;
     face_cam_delay := face_cam_delay self;
     face_cam_shown := v;
     force_top_counter := force_top_counter self |}.

Definition set_force_top_counter (v : Z) (self : t) : t :=
  {| spotify := spotify self; is_holding := is_holding self;
     holding_start_time := holding_start_time self;
     holding_duration_threshold := holding_duration_threshold self;
     spotify_mode := spotify_mode self;
     spotify_mode_start_time := spotify_mode_start_time self;
     face_cam_delay := face_cam_delay self;
     face_cam_shown := face_cam_shown self;
     force_top_counter := v |}.

(** *** The two geometric classifiers *)

(** The body of the loop that fills [hand_centers]. *)
Definition hand_center (hand_landmarks : NormalizedLandmarkList)
  : float * float :=
  let x_coords := map x (landmark hand_landmarks) in
  let y_coords := map y (landmark hand_landmarks) in
  let center_x := np_mean x_coords in
  let center_y := np_mean y_coords in
  (center_x, center_y).

Definition detect_holding_gesture
  (hand_landmarks_list : list NormalizedLandmarkList) (image_shape : list Z)
  : Exc bool :=
  if (List.length hand_landmarks_list <? 2)%nat then Ok false
  else
    ('(height, width) <- unpack2 image_shape ;;
     let hand_centers := map hand_center hand_landmarks_list in
     if (List.length hand_centers <? 2)%nat then Ok false
     else
       c0 <- getitem hand_centers 0 ;;
       c1 <- getitem hand_centers 1 ;;
       let dist :=
         np_sqrt (pow2 (fst c0 - fst c1) + pow2 (snd c0 - snd c1)) in
       if lt dist 0.5 then
         let avg_x := (fst c0 + fst c1) / 2 in
         let avg_y := (snd c0 + snd c1) / 2 in
         if lt 0.1 avg_x && lt avg_x 0.9 && lt 0.1 avg_y && lt avg_y 0.95
         then Ok true
         else Ok false
       else Ok false)%exc.

Definition detect_single_hand_holding
  (hand_landmarks : NormalizedLandmarkList) (image_shape : list Z)
  : Exc bool :=
  (wrist <- getitem (landmark hand_landmarks) 0 ;;
   thumb_tip <- getitem (landmark hand_landmarks) 4 ;;
   index_tip <- getitem (landmark hand_landmarks) 8 ;;
   middle_tip <- getitem (landmark hand_landmarks) 12 ;;
   ring_tip <- getitem (landmark hand_landmarks) 16 ;;
   pinky_tip <- getitem (landmark hand_landmarks) 20 ;;
   index_mcp <- getitem (landmark hand_landmarks) 5 ;;
   middle_mcp <- getitem (landmark hand_landmarks) 9 ;;
   let index_curled := gt (y index_tip) (y index_mcp - 0.08) in
   let middle_curled := gt (y middle_tip) (y middle_mcp - 0.08) in
   let thumb_dist :=
     np_sqrt (pow2 (x thumb_tip - x index_tip)
              + pow2 (y thumb_tip - y index_tip)) in
   if lt 0.1 (x wrist) && lt (x wrist) 0.9
      && lt 0.1 (y wrist) && lt (y wrist) 0.95
   then
     if (index_curled || middle_curled) && lt thumb_dist 0.3 then Ok true
     else Ok false
   else Ok false)%exc.

(** *** One iteration of [run] *)

(** What one iteration obtains from the outside: MediaPipe's
    [results.multi_hand_landmarks] ([None] when no hand is found) and the
    value of [time.time()]. *)
Record Frame : Set :=
  { multi_hand_landmarks : option (list NormalizedLandmarkList);
    current_time : float }.

(** Lines 263-278: the per-frame signal and the hand count. *)
Definition check_holding
  (multi_hand_landmarks : option (list NormalizedLandmarkList)) : bool * nat :=
  if truthy_list multi_hand_landmarks then
    match multi_hand_landmarks with
    | Some hand_landmarks_list => (true, List.length hand_landmarks_list)
    | None => (true, 0%nat)
    end
  else (false, 0%nat).

Definition holding_detected (f : Frame) : bool :=
  fst (check_holding (multi_hand_landmarks f)).

(** Lines 280-299: the debounced update of the holding state. *)
Definition update_holding (holding_detected : bool) (current_time : float)
  (self : t) : t * list Effect :=
  if holding_detected then
    match holding_start_time self with
    | None => (set_holding_start_time (Some current_time) self, [])
    | Some start =>
      if gt (current_time - start) (holding_duration_threshold self) then
        if negb (is_holding self) then
          let self1 := set_is_holding true self in
          let self2 := set_spotify_mode true self1 in
          let self3 := set_spotify_mode_start_time (Some current_time) self2 in
          if SpotifyController.is_spotify_available (spotify self3) then
            (self3, snd (SpotifyController.play_juna (spotify self3)))
          else (self3, [])
        else (self, [])
      else (self, [])
    end
  else
    let self1 := set_holding_start_time None self in
    if is_holding self1 then (set_is_holding false self1, [])
    else (self1, []).

(** Lines 314-359: which camera window is shown, and the bookkeeping of the
    face-cam window. *)
Inductive Window : Set := Camera_Feed | Face_Cam.

Definition update_display (current_time : float) (self : t)
  : t * Window * list Effect :=
  if spotify_mode self then
    let time_in_spotify_mode :=
      match spotify_mode_start_time self with
      | Some start =>
        if truthy_float (Some start) then current_time - start else 0
      | None => 0
      end in
    if ge time_in_spotify_mode (face_cam_delay self) then
      let self1 := set_face_cam_shown true self in
      let self2 :=
        set_force_top_counter (force_top_counter self1 + 1)%Z self1 in
      if (force_top_counter self2 mod 10 =? 0)%Z
      then (self2, Face_Cam, [popen_osascript])
      else (self2, Face_Cam, [])
    else (self, Camera_Feed, [])
  else (self, Camera_Feed, []).

(** The state-changing part of one iteration. *)
Definition step (self : t) (f : Frame) : t * list Effect :=
  let '(self1, eff1) := update_holding (holding_detected f) (current_time f) self in
  let '(self2, _, eff2) := update_display (current_time f) self1 in
  (self2, eff1 ++ eff2).

(** *** Runs *)

(** The debounce machine driven by a list of (signal, time) pairs: the state
    and the effects after each pair. *)
Fixpoint debounce_trace (self : t) (inputs : list (bool * float))
  : list (t * list Effect) :=
  match inputs with
  | [] => []
  | (signal, now) :: rest =>
    let r := update_holding signal now self in
    r :: debounce_trace (fst r) rest
  end.

Definition debounce_run (self : t) (inputs : list (bool * float)) : t :=
  fold_left (fun s i => fst (update_holding (fst i) (snd i) s)) inputs self.

(** Number of frames of a trace at which [is_holding] goes from false to
    true, [before] being its value when the trace starts. *)
Fixpoint confirmations (before : bool) (trace : list (t * list Effect)) : nat :=
  match trace with
  | [] => 0
  | (s, _) :: rest =>
    ((if negb before && is_holding s then 1 else 0) + confirmations (is_holding s) rest)%nat
  end.

Definition effects (trace : list (t * list Effect)) : list Effect :=
  List.concat (map snd trace).

End PerformativeDetector.

(* ===================================================================== *)
(** ** Notions used in the statements *)
(* ===================================================================== *)

Module Geometry.

Import mp.
Local Open Scope float_scope.

(** Euclidean distance between two points of the normalized frame. *)
Definition euclid (p q : float * float) : float :=
  np_sqrt (pow2 (fst p - fst q) + pow2 (snd p - snd q)).

Definition midpoint (p q : float * float) : float * float :=
  ((fst p + fst q) / 2, (snd p + snd q) / 2).

(** The rectangle x in (0.1, 0.9), y in (0.1, 0.95). *)
Definition in_center_region (p : float * float) : bool :=
  lt 0.1 (fst p) && lt (fst p) 0.9 && lt 0.1 (snd p) && lt (snd p) 0.95.


(** The [i]-th point of a hand (MediaPipe numbering: 0 wrist, 4 thumb tip,
    5 index knuckle, 8 index tip, 9 middle knuckle, 12 middle tip). *)
Definition point (h : NormalizedLandmarkList) (i : nat) : NormalizedLandmark :=
  nth i (landmark h) {| x := 0; y := 0 |}.

Definition xy (p : NormalizedLandmark) : float * float := (x p, y p).


Definition below_knuckle (h : NormalizedLandmarkList) (tip mcp : nat) : bool :=
  gt (y (point h tip)) (y (point h mcp) - 0.08).

Definition thumb_near_index (h : NormalizedLandmarkList) : bool :=
  lt (euclid (xy (point h 4)) (xy (point h 8))) 0.3.

Definition wrist_in_center (h : NormalizedLandmarkList) : bool :=
  in_center_region (xy (point h 0)).

(** A hand all of whose 21 points sit at [p], except the listed ones. *)
Definition hand_at (p : NormalizedLandmark)
  (moved : list (nat * NormalizedLandmark)) : NormalizedLandmarkList :=
  {| landmark :=
       map (fun i =>
              match find (fun m => Nat.eqb (fst m) i) moved with
              | Some m => snd m
              | None => p
              end)
           (seq 0 21) |}.

(** The per-frame signal as the specification words it: by case on the number
    of detected hands, with the geometric rule of that case. *)
Definition signal_by_hand_count
  (hand_landmarks_list : list NormalizedLandmarkList) (image_shape : list Z)
  : Exc bool :=
  match hand_landmarks_list with
  | [] => Ok false
  | [hand_landmarks] =>
    PerformativeDetector.detect_single_hand_holding hand_landmarks image_shape
  | _ => PerformativeDetector.detect_holding_gesture hand_landmarks_list image_shape
  end.

End Geometry.

Import Geometry.

Module Debounce.

Import PerformativeDetector.
Local Open Scope float_scope.

(** The three states of the machine, read off the two attributes. *)
Inductive Status : Set := NOT_HOLDING | PENDING_HOLDING | HOLDING.

Definition status (self : t) : Status :=
  if is_holding self then HOLDING
  else if is_some (holding_start_time self) then PENDING_HOLDING
  else NOT_HOLDING.

(** The signal true on every frame of a run of times. *)
Definition held (times : list float) : list (bool * float) :=
  map (pair true) times.

(** [now] is more than the threshold after [start]. *)
Definition exceeds (self : t) (start now : float) : bool :=
  gt (now - start) (holding_duration_threshold self).

(** The three writes of the loop body, named. *)
Definition pending (now : float) (self : t) : t :=
  set_holding_start_time (Some now) self.

Definition confirm (now : float) (self : t) : t :=
  set_spotify_mode_start_time (Some now)
    (set_spotify_mode true (set_is_holding true self)).

Definition release (self : t) : t :=
  set_is_holding false (set_holding_start_time None self).

(** What a confirmation emits: the call of [play_juna] and the thread it
    starts when the controller is available, nothing otherwise. *)
Definition trigger (self : t) : list Effect :=
  if SpotifyController.is_spotify_available (spotify self)
  then [call_play_juna; thread_start]
  else [].

(** A detector as [__init__] leaves it when no credentials are configured,
    and one with a client and a device. *)
Definition no_credentials : SpotifyController.Environ :=
  {| SpotifyController.SPOTIFY_CLIENT_ID := None;
     SpotifyController.SPOTIFY_CLIENT_SECRET := None |}.

Definition credentials : SpotifyController.Environ :=
  {| SpotifyController.SPOTIFY_CLIENT_ID := Some "id"%string;
     SpotifyController.SPOTIFY_CLIENT_SECRET := Some "secret"%string |}.

Definition nothing_playing : spotipy.Remote :=
  {| spotipy.current_playback_reply := Ok None;
     spotipy.start_playback_reply := Ok tt;
     spotipy.pause_playback_reply := Ok tt;
     spotipy.devices_reply :=
       Ok [{| spotipy.id := "laptop"%string; spotipy.name := "Laptop"%string |}];
     spotipy.popen_reply := Ok tt |}.

Definition detector_without_spotify : t :=
  __init__ (fst (SpotifyController.__init__ no_credentials nothing_playing)).

Definition detector_with_spotify : t :=
  __init__ (fst (SpotifyController.__init__ credentials nothing_playing)).

End Debounce.

Import Debounce.

Module Trigger.

Import spotipy SpotifyController.

(** "The currently playing track equals the target track and playback is
    active", on an answer of the status query. *)
Definition target_is_playing (self : t) (current : option Playback) : bool :=
  match current with
  | Some cur =>
    match item cur with
    | Some it =>
      String.eqb (uri it) (target_track_uri self) && spotipy.is_playing cur
    | None => false
    end
  | None => false
  end.

(** The same on the outcome of the query, an outcome that raised reporting
    nothing. *)
Definition reports_target_playing (r : Remote) (self : t) : bool :=
  match current_playback_reply r with
  | Ok current => target_is_playing self current
  | Raise _ => false
  end.

(** The start-playback command for the target track on the configured
    device. *)
Definition start_command (self : t) : Effect :=
  request (start_playback (device_id self) [target_track_uri self]).

(** The three components of one background attempt. *)
Definition attempt_result (r : Remote) (self : t) : bool :=
  fst (fst (_play_juna_async r self)).

Definition attempt_state (r : Remote) (self : t) : t :=
  snd (fst (_play_juna_async r self)).

Definition attempt_effects (r : Remote) (self : t) : list Effect :=
  snd (_play_juna_async r self).

(** What the caller of [play_juna] gets, and what the thread's target
    returned, when the thread is run against [r]. *)
Definition caller_result (r : Remote) (self : t) : bool :=
  fst (fst (fst (play_juna_joined r self))).

Definition thread_result (r : Remote) (self : t) : option bool :=
  snd (fst (fst (play_juna_joined r self))).

(** A controller with a client and a device, one without a client, and
    three behaviours of the remote side. *)
Definition connected : t := fst (__init__ credentials nothing_playing).

Definition disabled : t := fst (__init__ no_credentials nothing_playing).

Definition juna_playing : Remote :=
  {| current_playback_reply :=
       Ok (Some {| item := Some {| uri := juna |}; spotipy.is_playing := true |});
     start_playback_reply := Ok tt;
     pause_playback_reply := Ok tt;
     devices_reply := Ok [{| id := "laptop"%string; name := "Laptop"%string |}];
     popen_reply := Ok tt |}.

Definition query_fails : Remote :=
  {| current_playback_reply := Raise SpotifyException;
     start_playback_reply := Ok tt;
     pause_playback_reply := Ok tt;
     devices_reply := Ok [{| id := "laptop"%string; name := "Laptop"%string |}];
     popen_reply := Ok tt |}.

Definition start_fails : Remote :=
  {| current_playback_reply := Ok None;
     start_playback_reply := Raise SpotifyException;
     pause_playback_reply := Ok tt;
     devices_reply := Ok [{| id := "laptop"%string; name := "Laptop"%string |}];
     popen_reply := Ok tt |}.

End Trigger.

Import Trigger.

(* ===================================================================== *)
(** ** performative_detector.py: the status window and the loop around an
       iteration *)
(* ===================================================================== *)

(** A float that is not a number. *)
Definition is_nan (a : float) : Prop := Prim2SF a = SpecFloat.S754_nan.

(** The frames of an input sequence on which the signal is false. *)
Definition false_frames (inputs : list (bool * float)) : nat :=
  List.length (filter (fun i => negb (fst i)) inputs).

(** No two consecutive signals are true, [previous] being the signal before
    the first. *)
Fixpoint isolated (previous : bool) (inputs : list (bool * float)) : bool :=
  match inputs with
  | [] => true
  | (signal, _) :: rest => negb (previous && signal) && isolated signal rest
  end.

Definition is_thread_start (e : Effect) : bool :=
  match e with thread_start => true | _ => false end.

Definition is_popen_osascript (e : Effect) : bool :=
  match e with popen_osascript => true | _ => false end.

Module StatusWindow.

Import Stdlib.Strings.Ascii.

(** A BGR colour. *)
Definition Color : Set := (Z * Z * Z)%type.

(** One [cv2.putText(canvas, text, org, FONT_HERSHEY_SIMPLEX, 5.0, color,
    thickness)]. *)
Record PutText : Set :=
  { text : string; org : Z * Z; color : Color; thickness : Z }.

(** The canvas returned: its height and width, the colour it was filled with
    and the texts put on it, in order. *)
Record Canvas : Set :=
  { canvas_height : Z; canvas_width : Z; fill : Color; texts : list PutText }.

Definition newline : ascii := "010"%char.

(** [s.split('\n')]: the pieces between the newlines, one more than there
    are newlines. *)
Fixpoint split_newline (s : string) : list string :=
  match s with
  | EmptyString => [EmptyString]
  | String c rest =>
    if Ascii.eqb c newline then EmptyString :: split_newline rest
    else
      match split_newline rest with
      | piece :: pieces => String c piece :: pieces
      | [] => [String c EmptyString]
      end
  end.

(** [sum(l)] on integers. *)
Definition py_sum (l : list Z) : Z := fold_left Z.add l 0%Z.

Definition line_spacing : Z := 30.

(** The two [putText] calls made for a line: a black outline, thicker by 8,
    and the coloured text over it. *)
Definition outline_text (line : string) (at_ : Z * Z) : PutText :=
  {| text := line; org := at_; color := (0, 0, 0)%Z; thickness := (12 + 8)%Z |}.

Definition inner_text (line : string) (at_ : Z * Z) (colour : Color) : PutText :=
  {| text := line; org := at_; color := colour; thickness := 12%Z |}.

(** The drawing loop, from line number [i] on; [n] is [len(lines)]. *)
Fixpoint draw_lines (line_widths line_heights : list Z) (n : nat) (width : Z)
  (colour : Color) (i : nat) (lines : list string) (current_y : Z)
  : Exc (list PutText) :=
  match lines with
  | [] => Ok []
  | line :: rest =>
    (w <- getitem line_widths i ;;
     let text_x := ((width - w) / 2)%Z in
     let outline := outline_text line (text_x, current_y) in
     let inner := inner_text line (text_x, current_y) colour in
     next_y <- (if (Z.of_nat i <? Z.of_nat n - 1)%Z
                then h <- getitem line_heights i ;;
                     Ok (current_y + (h + line_spacing))%Z
                else Ok current_y) ;;
     more <- draw_lines line_widths line_heights n width colour (S i) rest next_y ;;
     Ok (outline :: inner :: more))%exc
  end.

(** [getTextSize line] stands for
    [cv2.getTextSize(line, font, scale, thickness)[0]], the width and height
    OpenCV measures for the line. *)
Definition create_status_window (getTextSize : string -> Z * Z)
  (text : string) (colour : Color) (width height : Z) : Exc Canvas :=
  if (height <? 0)%Z || (width <? 0)%Z then Raise ValueError
  else
    let background :=
      if String.eqb "PERFORMATIVE" text then (40, 50, 30)%Z
      else (20, 20, 40)%Z in
    let lines := split_newline text in
    let line_widths := map (fun line => fst (getTextSize line)) lines in
    let line_heights := map (fun line => snd (getTextSize line)) lines in
    let total_height :=
      (py_sum line_heights
       + (Z.of_nat (List.length lines) - 1) * line_spacing)%Z in
    (h0 <- getitem line_heights 0 ;;
     let start_y := ((height - total_height) / 2 + h0)%Z in
     drawn <- draw_lines line_widths line_heights (List.length lines) width
                colour 0 lines start_y ;;
     Ok {| canvas_height := height; canvas_width := width;
           fill := background; texts := drawn |})%exc.

(** Lines 301-307 of [run]. *)
Definition status_display (getTextSize : string -> Z * Z)
  (self : PerformativeDetector.t) : Exc Canvas :=
  if PerformativeDetector.is_holding self then
    create_status_window getTextSize "PERFORMATIVE" (100, 200, 100)%Z 1200 800
  else
    create_status_window getTextSize
      (String.append "NOT" (String newline "PERFORMATIVE"))
      (0, 0, 255)%Z 1200 800.

(** The baselines the loop gives to lines of the given heights, the first
    one being [y]. *)
Fixpoint baselines (heights : list Z) (y : Z) : list Z :=
  match heights with
  | [] => []
  | h :: rest => y :: baselines rest (y + (h + line_spacing))%Z
  end.

(** The texts for lines put at the given baselines, each centred in
    [width]. *)
Definition centred_texts (getTextSize : string -> Z * Z) (width : Z)
  (colour : Color) (placed : list (string * Z)) : list PutText :=
  flat_map
    (fun p =>
       let at_ := (((width - fst (getTextSize (fst p))) / 2)%Z, snd p) in
       [outline_text (fst p) at_; inner_text (fst p) at_ colour])
    placed.

(** Number of newline characters of a string. *)
Fixpoint newlines (s : string) : nat :=
  match s with
  | EmptyString => 0
  | String c rest => ((if Ascii.eqb c newline then 1 else 0) + newlines rest)%nat
  end.

(** A text measure for examples: 100 pixels a character, 110 pixels high. *)
Definition fixed_pitch (line : string) : Z * Z :=
  ((100 * Z.of_nat (String.length line))%Z, 110%Z).

End StatusWindow.

Module MainLoop.

Import PerformativeDetector.

(** What the world hands to one turn of [while self.cap.isOpened()]: whether
    the capture is open, what [self.cap.read()] and MediaPipe give, the clock,
    and what [cv2.waitKey(1)] returns ([-1] when no key is down). *)
Record Iteration : Set :=
  { isOpened : bool;
    ret : bool;
    frame : Frame;
    waitKey : Z }.

(** [cv2.waitKey(1) & 0xFF == ord('q')]. *)
Definition quit_pressed (key : Z) : bool := (Z.land key 255 =? 113)%Z.

(** [run] on the turns the world provides.  The boolean tells whether the
    loop was left, after which the capture is released and the windows are
    destroyed; it is false when the turns run out with the loop still
    going. *)
Fixpoint run (self : t) (turns : list Iteration) : t * list Effect * bool :=
  match turns with
  | [] => (self, [], false)
  | turn :: rest =>
    if negb (isOpened turn) then (self, [], true)
    else if negb (ret turn) then (self, [], true)
    else
      let '(self1, eff1) := step self (frame turn) in
      if quit_pressed (waitKey turn) then (self1, eff1, true)
      else
        let '(self2, eff2, gone) := run self1 rest in
        (self2, eff1 ++ eff2, gone)
  end.

(** A turn after which the loop goes on. *)
Definition goes_on (turn : Iteration) : bool :=
  isOpened turn && ret turn && negb (quit_pressed (waitKey turn)).

(** Iterations over a list of frames, none of them the last. *)
Definition steps (self : t) (frames : list Frame) : t :=
  fold_left (fun s f => fst (step s f)) frames self.

Fixpoint steps_effects (self : t) (frames : list Frame) : list Effect :=
  match frames with
  | [] => []
  | f :: rest => snd (step self f) ++ steps_effects (fst (step self f)) rest
  end.

(** What the debounce update is given on a frame. *)
Definition debounce_input (f : Frame) : bool * float :=
  (holding_detected f, current_time f).

(** Two detectors that differ at most in the face-cam bookkeeping. *)
Definition same_holding_state (a b : t) : Prop :=
  spotify a = spotify b
  /\ is_holding a = is_holding b
  /\ holding_start_time a = holding_start_time b
  /\ holding_duration_threshold a = holding_duration_threshold b
  /\ spotify_mode a = spotify_mode b
  /\ spotify_mode_start_time a = spotify_mode_start_time b
  /\ face_cam_delay a = face_cam_delay b.

End MainLoop.

(* ===================================================================== *)
(** ** Facts about float comparison *)
(* ===================================================================== *)




(* ===================================================================== *)
(** ** The two-hand classifier *)
(* ===================================================================== *)

Section TwoHands.

Import mp PerformativeDetector.
Local Open Scope float_scope.

Lemma unpack2_shape (image_shape : list Z) :
  (2 <= List.length image_shape)%nat ->
  exists height width, unpack2 image_shape = Ok (height, width).
Proof.
  destruct image_shape as [ | height [ | width rest]]; cbn; try lia.
  intros _. exists height, width. reflexivity.
Qed.

(** With two hands or more and a shape that has a height and a width, the
    classifier is the conjunction of its two tests on the first two
    centroids. *)
Lemma detect_holding_gesture_two (h0 h1 : NormalizedLandmarkList)
  (rest : list NormalizedLandmarkList) (image_shape : list Z) :
  (2 <= List.length image_shape)%nat ->
  detect_holding_gesture (h0 :: h1 :: rest) image_shape
  = Ok (lt (euclid (hand_center h0) (hand_center h1)) 0.5
        && in_center_region (midpoint (hand_center h0) (hand_center h1))).
Proof.
  intros Hshape. destruct (unpack2_shape image_shape Hshape) as (hh & ww & E).
  unfold detect_holding_gesture. cbn [List.length Nat.ltb Nat.leb].
  rewrite E. cbn [bind map List.length Nat.ltb Nat.leb getitem nth_error].
  unfold euclid, midpoint, in_center_region. cbn [fst snd].
  destruct (lt _ 0.5); cbn [andb]; [ | reflexivity ].
  match goal with |- (if ?c then _ else _) = _ => destruct c end; reflexivity.
Qed.




(** C10.  The pixel dimensions do not enter the decision: two calls on the
    same landmark sets with the shapes of any two frames return the same
    boolean. *)
Theorem detect_holding_gesture_ignores_image_shape
  (hand_landmarks_list : list NormalizedLandmarkList)
  (image_shape1 image_shape2 : list Z) :
  (2 <= List.length image_shape1)%nat ->
  (2 <= List.length image_shape2)%nat ->
  exists b : bool,
    detect_holding_gesture hand_landmarks_list image_shape1 = Ok b
    /\ detect_holding_gesture hand_landmarks_list image_shape2 = Ok b.
Proof.
  intros H1 H2.
  destruct hand_landmarks_list as [ | h0 [ | h1 rest]].
  - exists false. split; reflexivity.
  - exists false. split; reflexivity.
  - rewrite (detect_holding_gesture_two h0 h1 rest image_shape1 H1),
            (detect_holding_gesture_two h0 h1 rest image_shape2 H2).
    eexists. split; reflexivity.
Qed.

Lemma detect_holding_gesture_ignores_image_shape_witness :
  (2 <= List.length [720; 1280; 3]%Z)%nat
  /\ (2 <= List.length [480; 640]%Z)%nat
  /\ exists b : bool,
       detect_holding_gesture
         [hand_at {| x := 0.4; y := 0.5 |} []; hand_at {| x := 0.6; y := 0.5 |} []]
         [720; 1280; 3]%Z = Ok b
       /\ detect_holding_gesture
         [hand_at {| x := 0.4; y := 0.5 |} []; hand_at {| x := 0.6; y := 0.5 |} []]
         [480; 640]%Z = Ok b.
Proof.
  split; [ cbn; lia | ]. split; [ cbn; lia | ].
  apply (detect_holding_gesture_ignores_image_shape
           [hand_at {| x := 0.4; y := 0.5 |} []; hand_at {| x := 0.6; y := 0.5 |} []]
           [720; 1280; 3]%Z [480; 640]%Z); cbn; lia.
Defined.

End TwoHands.

(* ===================================================================== *)
(** ** The single-hand classifier *)
(* ===================================================================== *)

Section SingleHand.

Import mp PerformativeDetector.
Local Open Scope float_scope.

Lemma getitem_point (h : NormalizedLandmarkList) (i : nat) :
  (i < List.length (landmark h))%nat ->
  getitem (landmark h) i = Ok (point h i).
Proof.
  intros Hi. unfold getitem, point.
  rewrite (nth_error_nth' (landmark h) {| x := 0; y := 0 |} Hi). reflexivity.
Qed.


(** On a hand that has all the points the function reads, the result is the
    conjunction written in the source. *)
Lemma detect_single_hand_holding_full (h : NormalizedLandmarkList)
  (image_shape : list Z) :
  (21 <= List.length (landmark h))%nat ->
  detect_single_hand_holding h image_shape
  = Ok (wrist_in_center h
        && ((below_knuckle h 8 5 || below_knuckle h 12 9)
            && thumb_near_index h)).
Proof.
  intros Hlen. unfold detect_single_hand_holding.
  rewrite !getitem_point by lia. cbn [bind].
  unfold wrist_in_center, in_center_region, below_knuckle, thumb_near_index,
    euclid, xy. cbn [fst snd].
  match goal with |- (if ?c then _ else _) = _ => destruct c end;
    cbn [andb]; [ | reflexivity ].
  match goal with |- (if ?c then _ else _) = _ => destruct c end; reflexivity.
Qed.





End SingleHand.

(* ===================================================================== *)
(** ** The per-frame signal of the main loop *)
(* ===================================================================== *)

Section Signal.

Import mp PerformativeDetector.
Local Open Scope float_scope.

(** C1, as the code has it.  With no hand ([None] or an empty list) the
    signal is false; with one hand or more it is true, whatever the
    landmarks: neither geometric rule is consulted. *)
Theorem holding_detected_any_hand (f : Frame) :
  (multi_hand_landmarks f = None \/ multi_hand_landmarks f = Some [] ->
   holding_detected f = false)
  /\
  (forall hand_landmarks rest,
     multi_hand_landmarks f = Some (hand_landmarks :: rest) ->
     holding_detected f = true
     /\ snd (check_holding (multi_hand_landmarks f)) = S (List.length rest)).
Proof.
  unfold holding_detected. split.
  - intros [E | E]; rewrite E; reflexivity.
  - intros hand_landmarks rest E. rewrite E. split; reflexivity.
Qed.

Lemma holding_detected_any_hand_witness :
  holding_detected
    {| multi_hand_landmarks := Some [hand_at {| x := 0.05; y := 0.5 |} []];
       current_time := 0 |} = true
  /\ holding_detected {| multi_hand_landmarks := None; current_time := 0 |}
     = false.
Proof.
  split.
  - apply (proj2 (holding_detected_any_hand
                    {| multi_hand_landmarks :=
                         Some [hand_at {| x := 0.05; y := 0.5 |} []];
                       current_time := 0 |})
             (hand_at {| x := 0.05; y := 0.5 |} []) []).
    reflexivity.
  - apply (proj1 (holding_detected_any_hand
                    {| multi_hand_landmarks := None; current_time := 0 |})).
    left; reflexivity.
Defined.

(** C1 as stated fails: one hand which the single-hand rule rejects (its
    wrist is at x = 0.05), and two hands which the two-hand rule rejects
    (they are 0.8 apart), both give a true signal. *)
Lemma holding_detected_by_hand_count_counterexample :
  (signal_by_hand_count [hand_at {| x := 0.05; y := 0.5 |} []] [720; 1280; 3]%Z
   = Ok false
   /\ holding_detected
        {| multi_hand_landmarks := Some [hand_at {| x := 0.05; y := 0.5 |} []];
           current_time := 0 |} = true)
  /\
  (signal_by_hand_count
     [hand_at {| x := 0.1; y := 0.5 |} []; hand_at {| x := 0.9; y := 0.5 |} []]
     [720; 1280; 3]%Z = Ok false
   /\ holding_detected
        {| multi_hand_landmarks :=
             Some [hand_at {| x := 0.1; y := 0.5 |} [];
                   hand_at {| x := 0.9; y := 0.5 |} []];
           current_time := 0 |} = true).
Proof.
  repeat split; vm_compute; reflexivity.
Qed.

End Signal.

(* ===================================================================== *)
(** ** The debounce state machine *)
(* ===================================================================== *)

Section DebounceSteps.

Import PerformativeDetector.
Local Open Scope float_scope.

Variable self : t.
Variable now : float.

(** Signal true, nothing pending: the time is recorded. *)
Lemma update_holding_fresh :
  holding_start_time self = None ->
  update_holding true now self = (pending now self, []).
Proof. intros E. unfold update_holding. rewrite E. reflexivity. Qed.

(** Signal true, threshold not exceeded: nothing changes. *)
Lemma update_holding_wait (start : float) :
  holding_start_time self = Some start ->
  exceeds self start now = false ->
  update_holding true now self = (self, []).
Proof.
  intros E Hx. unfold update_holding, exceeds in *. rewrite E, Hx. reflexivity.
Qed.

(** Signal true while holding: nothing changes. *)
Lemma update_holding_stay (start : float) :
  holding_start_time self = Some start ->
  is_holding self = true ->
  update_holding true now self = (self, []).
Proof.
  intros E Hh. unfold update_holding. rewrite E, Hh. cbn [negb].
  match goal with |- (if ?c then _ else _) = _ => destruct c end; reflexivity.
Qed.

(** Signal true, threshold exceeded, not yet holding: the confirmation. *)
Lemma update_holding_confirm (start : float) :
  holding_start_time self = Some start ->
  is_holding self = false ->
  exceeds self start now = true ->
  update_holding true now self = (confirm now self, trigger self).
Proof.
  intros E Hh Hx. unfold update_holding, exceeds in *. rewrite E, Hx, Hh.
  cbn [negb]. unfold confirm, trigger. cbn [spotify set_spotify_mode_start_time
    set_spotify_mode set_is_holding].
  unfold SpotifyController.is_spotify_available, SpotifyController.play_juna.
  destruct (SpotifyController.sp (spotify self)); cbn; [ | reflexivity ].
  destruct (SpotifyController.device_id (spotify self)); reflexivity.
Qed.

(** Signal false: the pending time is dropped and holding ends. *)
Lemma update_holding_release :
  update_holding false now self = (release self, []).
Proof.
  unfold update_holding, release. destruct self as [c h st th m ms d sh k].
  destruct h; reflexivity.
Qed.

End DebounceSteps.

Section DebounceRuns.

Import PerformativeDetector.
Local Open Scope float_scope.

Lemma debounce_trace_app (self : t) (l1 l2 : list (bool * float)) :
  debounce_trace self (l1 ++ l2)
  = debounce_trace self l1 ++ debounce_trace (debounce_run self l1) l2.
Proof.
  revert self. induction l1 as [ | [signal now] l1 IH]; intros self.
  - reflexivity.
  - cbn [app debounce_trace debounce_run fold_left fst snd].
    f_equal. apply IH.
Qed.

(** While holding, a held signal leaves the state alone. *)
Lemma debounce_trace_stay (self : t) (start : float) (times : list float) :
  holding_start_time self = Some start ->
  is_holding self = true ->
  debounce_trace self (held times) = repeat (self, []) (List.length times).
Proof.
  intros E Hh. induction times as [ | now times IH]; [ reflexivity | ].
  cbn [held map debounce_trace List.length repeat].
  rewrite (update_holding_stay self now start E Hh). cbn [fst].
  f_equal. exact IH.
Qed.

(** While pending, a held signal that does not exceed the threshold leaves
    the state alone. *)
Lemma debounce_trace_wait (self : t) (start : float) (times : list float) :
  holding_start_time self = Some start ->
  forallb (fun now => negb (exceeds self start now)) times = true ->
  debounce_trace self (held times) = repeat (self, []) (List.length times)
  /\ debounce_run self (held times) = self.
Proof.
  intros E. induction times as [ | now times IH]; [ split; reflexivity | ].
  cbn [forallb]. intros H. apply andb_true_iff in H as [Hnow Hrest].
  apply negb_true_iff in Hnow.
  cbn [held map debounce_trace debounce_run fold_left List.length repeat fst snd].
  rewrite (update_holding_wait self now start E Hnow). cbn [fst].
  destruct (IH Hrest) as [IHt IHr]. split; [ f_equal; exact IHt | exact IHr ].
Qed.

(** The first element of a list that passes a test. *)
Lemma first_passing {A : Type} (p : A -> bool) (l : list A) :
  existsb p l = true ->
  exists before a after,
    l = before ++ a :: after
    /\ forallb (fun b => negb (p b)) before = true
    /\ p a = true.
Proof.
  induction l as [ | b l IH]; [ discriminate | ].
  cbn [existsb]. destruct (p b) eqn:Hb.
  - intros _. exists [], b, l. repeat split; assumption.
  - cbn [orb]. intros H. destruct (IH H) as (before & a & after & -> & Hbefore & Ha).
    exists (b :: before), a, after. repeat split; [ | exact Ha ].
    cbn [forallb]. rewrite Hb, Hbefore. reflexivity.
Qed.

(** A pending machine under a held signal: it confirms at the first time
    that exceeds the threshold, once, and then stays. *)
Lemma debounce_trace_pending (self : t) (start : float)
  (before after : list float) (at_ : float) :
  holding_start_time self = Some start ->
  is_holding self = false ->
  forallb (fun now => negb (exceeds self start now)) before = true ->
  exceeds self start at_ = true ->
  debounce_trace self (held (before ++ at_ :: after))
  = repeat (self, []) (List.length before)
    ++ (confirm at_ self, trigger self)
    :: repeat (confirm at_ self, []) (List.length after).
Proof.
  intros E Hh Hbefore Hat. unfold held. rewrite map_app. fold (held before).
  rewrite debounce_trace_app.
  destruct (debounce_trace_wait self start before E Hbefore) as [-> ->].
  f_equal. cbn [map debounce_trace].
  rewrite (update_holding_confirm self at_ start E Hh Hat). cbn [fst].
  f_equal. apply (debounce_trace_stay (confirm at_ self) start after).
  - unfold confirm. cbn. exact E.
  - reflexivity.
Qed.

(** Counting over the pieces of such a trace. *)
Lemma effects_app (tr1 tr2 : list (t * list Effect)) :
  effects (tr1 ++ tr2) = effects tr1 ++ effects tr2.
Proof. unfold effects. rewrite map_app, concat_app. reflexivity. Qed.

Lemma effects_repeat_silent (self : t) (n : nat) :
  effects (repeat (self, []) n) = [].
Proof. induction n as [ | n IH]; [ reflexivity | exact IH ]. Qed.

Lemma confirmations_repeat_not_holding (self : t) (eff : list Effect) (n : nat)
  (tr : list (t * list Effect)) :
  is_holding self = false ->
  confirmations false (repeat (self, eff) n ++ tr) = confirmations false tr.
Proof.
  intros Hh. induction n as [ | n IH]; [ reflexivity | ].
  cbn [repeat app confirmations]. rewrite Hh. cbn. exact IH.
Qed.

Lemma confirmations_repeat_holding (self : t) (eff : list Effect) (n : nat) :
  is_holding self = true ->
  confirmations true (repeat (self, eff) n) = 0%nat.
Proof.
  intros Hh. induction n as [ | n IH]; [ reflexivity | ].
  cbn [repeat confirmations]. rewrite Hh. cbn. exact IH.
Qed.

End DebounceRuns.

Section DebounceClaims.

Import PerformativeDetector.
Local Open Scope float_scope.

(** C4, as the code has it.  From NOT_HOLDING, with the signal true on every
    frame of a run whose last frame is more than the threshold after its
    first, the machine confirms exactly once, at the first frame that exceeds
    the threshold: that frame's time is recorded in [spotify_mode_start_time]
    and, if the Spotify controller is available, [play_juna] is called there,
    once; if it is not available [play_juna] is not called at all.  Before
    that frame and after it nothing is emitted and the state stays put. *)
Theorem held_signal_confirms_once (self : t) (first last : float)
  (between : list float) :
  is_holding self = false ->
  holding_start_time self = None ->
  exceeds self first last = true ->
  let trace := debounce_trace self (held (first :: between ++ [last])) in
  confirmations false trace = 1%nat
  /\ count is_call_play_juna (effects trace)
     = (if SpotifyController.is_spotify_available (spotify self)
        then 1%nat else 0%nat)
  /\ exists before at_ after,
       between ++ [last] = before ++ at_ :: after
       /\ forallb (fun now => negb (exceeds self first now)) before = true
       /\ exceeds self first at_ = true
       /\ spotify_mode_start_time (confirm at_ (pending first self)) = Some at_
       /\ is_holding (confirm at_ (pending first self)) = true
       /\ trace
          = (pending first self, [])
            :: repeat (pending first self, []) (List.length before)
            ++ (confirm at_ (pending first self), trigger self)
            :: repeat (confirm at_ (pending first self), []) (List.length after).
Proof.
  intros Hh Hnone Hlast trace.
  assert (Hex : existsb (exceeds self first) (between ++ [last]) = true).
  { rewrite existsb_app. cbn [existsb]. rewrite Hlast.
    destruct (existsb _ between); reflexivity. }
  destruct (first_passing _ _ Hex) as (before & at_ & after & Esplit & Hbefore & Hat).
  assert (Etrace :
            trace
            = (pending first self, [])
              :: repeat (pending first self, []) (List.length before)
              ++ (confirm at_ (pending first self), trigger self)
              :: repeat (confirm at_ (pending first self), []) (List.length after)).
  { subst trace. cbn [held map debounce_trace].
    rewrite (update_holding_fresh self first Hnone). cbn [fst]. f_equal.
    fold (held (between ++ [last])). rewrite Esplit.
    apply (debounce_trace_pending (pending first self) first before after at_);
      try assumption; reflexivity. }
  split; [ | split ].
  - rewrite Etrace.
    change ((pending first self, @nil Effect)
            :: repeat (pending first self, []) (List.length before) ++ ?tl)
      with (repeat (pending first self, @nil Effect) (S (List.length before)) ++ tl).
    rewrite confirmations_repeat_not_holding by exact Hh.
    cbn [confirmations]. cbn [confirm is_holding set_spotify_mode_start_time
      set_spotify_mode set_is_holding negb andb].
    rewrite confirmations_repeat_holding by reflexivity. reflexivity.
  - rewrite Etrace.
    change ((pending first self, @nil Effect)
            :: repeat (pending first self, []) (List.length before) ++ ?tl)
      with (repeat (pending first self, @nil Effect) (S (List.length before)) ++ tl).
    rewrite effects_app, effects_repeat_silent. cbn [app].
    change ((?a, ?e) :: ?r) with ([(a, e)] ++ r).
    rewrite effects_app, effects_repeat_silent, app_nil_r.
    unfold effects, trigger. cbn [map snd List.concat].
    destruct (SpotifyController.is_spotify_available (spotify self)); reflexivity.
  - exists before, at_, after. repeat split; try assumption.
Qed.

End DebounceClaims.

Section DebounceInvariants.

Import PerformativeDetector.
Local Open Scope float_scope.

Lemma debounce_run_cons (self : t) (signal : bool) (now : float)
  (rest : list (bool * float)) :
  debounce_run self ((signal, now) :: rest)
  = debounce_run (fst (update_holding signal now self)) rest.
Proof. reflexivity. Qed.

Lemma debounce_run_stay (self : t) (start : float) (times : list float) :
  holding_start_time self = Some start ->
  is_holding self = true ->
  debounce_run self (held times) = self.
Proof.
  intros E Hh. induction times as [ | now times IH]; [ reflexivity | ].
  cbn [held map debounce_run fold_left fst snd].
  rewrite (update_holding_stay self now start E Hh). exact IH.
Qed.

(** A pending machine under a held signal ends up holding exactly when some
    frame exceeds the threshold counted from the pending time. *)
Lemma debounce_run_pending (self : t) (start : float) (times : list float) :
  holding_start_time self = Some start ->
  is_holding self = false ->
  is_holding (debounce_run self (held times))
  = existsb (exceeds self start) times.
Proof.
  intros E Hh. induction times as [ | now times IH]; [ exact Hh | ].
  cbn [held map existsb]. fold (held times). rewrite debounce_run_cons.
  destruct (exceeds self start now) eqn:Hx.
  - rewrite (update_holding_confirm self now start E Hh Hx). cbn [fst orb].
    rewrite (debounce_run_stay (confirm now self) start times);
      [ reflexivity | exact E | reflexivity ].
  - rewrite (update_holding_wait self now start E Hx). cbn [fst orb]. exact IH.
Qed.

(** C3, as the code has it.  After every update: [holding_start_time] is set
    exactly when the frame's signal was true (the machine is then pending or
    holding) and is [None] after a false frame, when the machine is not
    holding either; [spotify_mode_start_time] is written on a transition into
    HOLDING, with that frame's time, and is left as it was by every other
    update, the transition back to NOT_HOLDING included. *)
Theorem holding_state_invariant (self : t) (signal : bool) (now : float) :
  let self' := fst (update_holding signal now self) in
  (signal = true -> holding_start_time self' <> None)
  /\ (signal = false ->
      holding_start_time self' = None /\ is_holding self' = false)
  /\ (is_holding self' = true -> holding_start_time self' <> None)
  /\ (is_holding self = false -> is_holding self' = true ->
      spotify_mode_start_time self' = Some now /\ spotify_mode self' = true)
  /\ (is_holding self = true \/ is_holding self' = false ->
      spotify_mode_start_time self' = spotify_mode_start_time self
      /\ spotify_mode self' = spotify_mode self).
Proof.
  assert (Hcases :
            exists self1 eff, update_holding signal now self = (self1, eff)
              /\ ((signal = true /\ self1 = self
                   /\ holding_start_time self <> None)
                  \/ (signal = true /\ self1 = pending now self
                      /\ holding_start_time self = None)
                  \/ (signal = true /\ self1 = confirm now self
                      /\ holding_start_time self <> None
                      /\ is_holding self = false)
                  \/ (signal = false /\ self1 = release self))).
  { destruct signal.
    - destruct (holding_start_time self) as [start | ] eqn:E.
      + destruct (is_holding self) eqn:Hh.
        * rewrite (update_holding_stay self now start E Hh).
          do 2 eexists. split; [ reflexivity | ]. left.
          repeat split; congruence.
        * destruct (exceeds self start now) eqn:Hx.
          -- rewrite (update_holding_confirm self now start E Hh Hx).
             do 2 eexists. split; [ reflexivity | ]. right; right; left.
             repeat split; congruence.
          -- rewrite (update_holding_wait self now start E Hx).
             do 2 eexists. split; [ reflexivity | ]. left.
             repeat split; congruence.
      + rewrite (update_holding_fresh self now E).
        do 2 eexists. split; [ reflexivity | ]. right; left.
        repeat split; congruence.
    - rewrite update_holding_release.
      do 2 eexists. split; [ reflexivity | ]. right; right; right.
      split; reflexivity. }
  destruct Hcases as (self1 & eff & -> & Hcase). cbn [fst].
  destruct Hcase as [(-> & -> & Hset)
                    | [(-> & -> & Hnone)
                      | [(-> & -> & Hset & Hh) | (-> & ->)]]];
    cbn; (split; [ | split; [ | split; [ | split ]]]); intros;
    repeat match goal with
           | H : _ /\ _ |- _ => destruct H
           | H : _ \/ _ |- _ => destruct H
           | |- _ /\ _ => split
           end;
    cbn in *; congruence.
Qed.

(** From a fresh detector: held at 0.0 and 0.25 (HOLDING, stamped 0.25), then
    released at 5.0. *)
Lemma holding_state_invariant_witness :
  is_holding (debounce_run detector_with_spotify (held [0; 0.25])) = true
  /\ is_holding
       (fst (update_holding false 5
               (debounce_run detector_with_spotify (held [0; 0.25])))) = false
  /\ spotify_mode_start_time
       (fst (update_holding false 5
               (debounce_run detector_with_spotify (held [0; 0.25]))))
     = spotify_mode_start_time
         (debounce_run detector_with_spotify (held [0; 0.25]))
  /\ holding_start_time
       (fst (update_holding false 5
               (debounce_run detector_with_spotify (held [0; 0.25])))) = None.
Proof.
  pose proof (holding_state_invariant
                (debounce_run detector_with_spotify (held [0; 0.25])) false 5)
    as (_ & Hfalse & _ & _ & Hkeep).
  assert (Hh : is_holding (debounce_run detector_with_spotify (held [0; 0.25]))
               = true) by (vm_compute; reflexivity).
  split; [ exact Hh | ].
  split; [ apply (Hfalse eq_refl) | ].
  split; [ apply (Hkeep (or_introl Hh)) | apply (Hfalse eq_refl) ].
Defined.

(** C3 as stated fails: after the transition back to NOT_HOLDING the time of
    entry into Spotify mode is still there. *)
Lemma spotify_mode_start_time_not_cleared_counterexample :
  is_holding (debounce_run detector_with_spotify (held [0; 0.25])) = true
  /\ status
       (debounce_run detector_with_spotify (held [0; 0.25] ++ [(false, 5)]))
     = NOT_HOLDING
  /\ spotify_mode_start_time
       (debounce_run detector_with_spotify (held [0; 0.25] ++ [(false, 5)]))
     <> None.
Proof.
  split; [ vm_compute; reflexivity | ].
  split; [ vm_compute; reflexivity | ].
  vm_compute. discriminate.
Qed.

(** C4 as stated fails: without a Spotify client the machine confirms and
    [play_juna] is never called. *)
Lemma held_signal_without_spotify_counterexample :
  is_holding detector_without_spotify = false
  /\ holding_start_time detector_without_spotify = None
  /\ exceeds detector_without_spotify 0 0.25 = true
  /\ confirmations false
       (debounce_trace detector_without_spotify (held [0; 0.25])) = 1%nat
  /\ count is_call_play_juna
       (effects (debounce_trace detector_without_spotify (held [0; 0.25])))
     <> 1%nat.
Proof.
  repeat split; try (vm_compute; reflexivity).
  vm_compute. discriminate.
Qed.

Lemma held_signal_confirms_once_witness :
  is_holding detector_with_spotify = false
  /\ holding_start_time detector_with_spotify = None
  /\ exceeds detector_with_spotify 0 0.25 = true
  /\ confirmations false
       (debounce_trace detector_with_spotify
          (held (0 :: [0.05; 0.1; 0.15; 0.2] ++ [0.25]))) = 1%nat
  /\ count is_call_play_juna
       (effects
          (debounce_trace detector_with_spotify
             (held (0 :: [0.05; 0.1; 0.15; 0.2] ++ [0.25])))) = 1%nat.
Proof.
  assert (H0 : is_holding detector_with_spotify = false) by reflexivity.
  assert (H1 : holding_start_time detector_with_spotify = None) by reflexivity.
  assert (H2 : exceeds detector_with_spotify 0 0.25 = true)
    by (vm_compute; reflexivity).
  destruct (held_signal_confirms_once detector_with_spotify 0 0.25
              [0.05; 0.1; 0.15; 0.2] H0 H1 H2) as (Hc & Hp & _).
  repeat split; assumption.
Defined.

(** C5.  A false frame resets [holding_start_time] to [None] and leaves the
    machine not holding; under the held signal that follows, the machine
    holds exactly when some frame is more than the threshold after the first
    true frame that follows the false one.  What was pending before the false
    frame plays no part. *)
Theorem false_frame_restarts_the_clock (self : t) (at_false next : float)
  (later : list float) :
  holding_start_time (fst (update_holding false at_false self)) = None
  /\ is_holding (fst (update_holding false at_false self)) = false
  /\ is_holding
       (debounce_run self ((false, at_false) :: held (next :: later)))
     = existsb (exceeds self next) later.
Proof.
  rewrite update_holding_release. cbn [fst].
  split; [ reflexivity | ]. split; [ reflexivity | ].
  cbn [held map]. fold (held later). rewrite !debounce_run_cons.
  rewrite update_holding_release. cbn [fst].
  rewrite (update_holding_fresh (release self) next eq_refl). cbn [fst].
  apply (debounce_run_pending (pending next (release self)) next later);
    reflexivity.
Qed.

(** C8.  When the signal turns false while holding, the update sets
    [is_holding] to false and [holding_start_time] to [None], emits nothing
    (no call into the controller, hence no pause, stop or play request), and
    leaves the controller and every other attribute as they were. *)
Theorem release_changes_only_the_holding_flags (self : t) (now : float) :
  is_holding self = true ->
  let self' := fst (update_holding false now self) in
  is_holding self' = false
  /\ holding_start_time self' = None
  /\ snd (update_holding false now self) = []
  /\ count is_pause_playback (snd (update_holding false now self)) = 0%nat
  /\ count is_request (snd (update_holding false now self)) = 0%nat
  /\ spotify self' = spotify self
  /\ holding_duration_threshold self' = holding_duration_threshold self
  /\ spotify_mode self' = spotify_mode self
  /\ spotify_mode_start_time self' = spotify_mode_start_time self
  /\ face_cam_delay self' = face_cam_delay self
  /\ face_cam_shown self' = face_cam_shown self
  /\ force_top_counter self' = force_top_counter self.
Proof.
  intros _. rewrite update_holding_release. cbn.
  repeat split; reflexivity.
Qed.

Lemma release_changes_only_the_holding_flags_witness :
  is_holding (debounce_run detector_with_spotify (held [0.5; 1; 5])) = true
  /\ is_holding
       (fst (update_holding false 5.05
               (debounce_run detector_with_spotify (held [0.5; 1; 5])))) = false
  /\ snd (update_holding false 5.05
            (debounce_run detector_with_spotify (held [0.5; 1; 5]))) = []
  /\ spotify_mode_start_time
       (fst (update_holding false 5.05
               (debounce_run detector_with_spotify (held [0.5; 1; 5]))))
     = Some 1.
Proof.
  assert (Hh : is_holding (debounce_run detector_with_spotify (held [0.5; 1; 5]))
               = true) by (vm_compute; reflexivity).
  destruct (release_changes_only_the_holding_flags
              (debounce_run detector_with_spotify (held [0.5; 1; 5])) 5.05 Hh)
    as (H1 & _ & H3 & _ & _ & _ & _ & _ & H9 & _).
  split; [ exact Hh | ]. split; [ exact H1 | ]. split; [ exact H3 | ].
  rewrite H9. vm_compute. reflexivity.
Defined.

End DebounceInvariants.

(* ===================================================================== *)
(** ** The playback trigger *)
(* ===================================================================== *)

Section PlaybackTrigger.

Import spotipy SpotifyController.

Lemma show_spotify_window_sends_no_request (r : Remote) (self : t) :
  count is_request (snd (show_spotify_window r self)) = 0%nat
  /\ count is_start_playback (snd (show_spotify_window r self)) = 0%nat.
Proof.
  unfold show_spotify_window.
  destruct (window_opened self); [ split; reflexivity | ].
  destruct (popen_reply r); split; reflexivity.
Qed.

(** C7, as the code has it.  An attempt made with a client first sends the
    status query.  If the query answers that the target track is the current
    one and is playing, the attempt stops there: the query is its only effect
    and the controller is unchanged.  If the query answers anything else, the
    attempt sends exactly one start-playback command, for the target track on
    the configured device, right after the query.  If the query raises, the
    attempt stops there as well and no start-playback command is sent. *)
Theorem play_juna_async_checks_before_playing (r : Remote) (self : t) :
  sp self <> None ->
  (exists rest, attempt_effects r self = request current_playback :: rest)
  /\
  match current_playback_reply r with
  | Ok current =>
    if target_is_playing self current then
      attempt_effects r self = [request current_playback]
      /\ attempt_state r self = self
      /\ attempt_result r self = true
    else
      (exists shown,
          attempt_effects r self
          = [request current_playback; start_command self] ++ shown
          /\ count is_request shown = 0%nat)
      /\ count is_start_playback (attempt_effects r self) = 1%nat
  | Raise _ =>
    attempt_effects r self = [request current_playback]
    /\ attempt_state r self = self
    /\ attempt_result r self = false
    /\ count is_start_playback (attempt_effects r self) = 0%nat
  end.
Proof.
  intros Hsp. unfold attempt_effects, attempt_state, attempt_result,
    _play_juna_async, start_command.
  destruct (sp self) as [client | ]; [ clear Hsp | congruence ].
  destruct (current_playback_reply r) as [current | e].
  - fold (target_is_playing self current).
    destruct (target_is_playing self current).
    + split; [ eexists; reflexivity | repeat split; reflexivity ].
    + destruct (start_playback_reply r) as [ok | e].
      * destruct (show_spotify_window r (set_is_playing true self))
          as [self2 shown] eqn:Eshow.
        pose proof (show_spotify_window_sends_no_request r
                      (set_is_playing true self)) as [Hreq Hstart].
        rewrite Eshow in Hreq, Hstart. cbn [snd] in Hreq, Hstart.
        cbn [fst snd]. split; [ eexists; reflexivity | ]. split.
        -- exists shown. split; [ reflexivity | exact Hreq ].
        -- unfold count in *. cbn [app filter is_start_playback List.length].
           rewrite Hstart. reflexivity.
      * cbn [fst snd]. split; [ eexists; reflexivity | ]. split.
        -- exists []. split; reflexivity.
        -- reflexivity.
  - split; [ eexists; reflexivity | repeat split; reflexivity ].
Qed.

(** With Juna already playing the attempt sends the query and nothing else;
    with nothing playing it sends the query and one start command. *)
Lemma play_juna_async_checks_before_playing_witness :
  sp connected <> None
  /\ attempt_effects juna_playing connected = [request current_playback]
  /\ attempt_state juna_playing connected = connected
  /\ count is_start_playback (attempt_effects nothing_playing connected) = 1%nat.
Proof.
  assert (Hsp : sp connected <> None) by (vm_compute; discriminate).
  split; [ exact Hsp | ].
  pose proof (play_juna_async_checks_before_playing juna_playing connected Hsp)
    as [_ Hplaying].
  pose proof (play_juna_async_checks_before_playing nothing_playing connected Hsp)
    as [_ Hsilent].
  cbn in Hplaying, Hsilent.
  destruct Hplaying as (He & Hs & _). destruct Hsilent as (_ & Hc).
  split; [ exact He | ]. split; [ exact Hs | exact Hc ].
Defined.

(** C7 as stated fails: when the status query raises, the remote side has not
    reported the target track as playing and yet no start-playback command is
    sent. *)
Lemma play_juna_async_query_fails_counterexample :
  sp connected <> None
  /\ reports_target_playing query_fails connected = false
  /\ count is_start_playback (attempt_effects query_fails connected) <> 1%nat.
Proof.
  split; [ vm_compute; discriminate | ].
  split; [ vm_compute; reflexivity | vm_compute; discriminate ].
Qed.

(** C9.  [play_juna] returns True exactly when [self.sp] is not [None] and
    False exactly when it is; whatever the remote side does to the background
    attempt, the caller gets that same value, and the value the attempt itself
    returned goes nowhere. *)
Theorem play_juna_returns_whether_client_exists (self : t) (r : Remote) :
  (fst (play_juna self) = true <-> sp self <> None)
  /\ (fst (play_juna self) = false <-> sp self = None)
  /\ caller_result r self = fst (play_juna self)
  /\ (forall r' : Remote, caller_result r' self = caller_result r self).
Proof.
  unfold caller_result, play_juna_joined, play_juna.
  destruct (sp self) as [client | ] eqn:Esp; cbn [existsb orb fst snd].
  - assert (Hjoin : forall r0 : Remote,
               fst (fst (fst (let '(done, self1, eff1) := _play_juna_async r0 self in
                              (true, Some done, self1,
                               [call_play_juna; thread_start] ++ eff1)))) = true).
    { intros r0. destruct (_play_juna_async r0 self) as [[done self1] eff1].
      reflexivity. }
    repeat split; intros; try congruence; try discriminate.
    + apply Hjoin.
    + rewrite !Hjoin. reflexivity.
  - repeat split; intros; try congruence; try discriminate.
Qed.

(** The background attempt fails, or succeeds, and the caller is told True
    either way; without a client the caller is told False and no thread is
    started. *)
Lemma play_juna_result_examples :
  (caller_result start_fails connected = true
   /\ thread_result start_fails connected = Some false)
  /\ (caller_result query_fails connected = true
      /\ thread_result query_fails connected = Some false)
  /\ (caller_result nothing_playing connected = true
      /\ thread_result nothing_playing connected = Some true)
  /\ (caller_result nothing_playing disabled = false
      /\ thread_result nothing_playing disabled = None).
Proof. repeat split; vm_compute; reflexivity. Qed.

End PlaybackTrigger.

(* ===================================================================== *)
(** ** The rest of an iteration, and the scenarios of the specification *)
(* ===================================================================== *)

Section Iteration.

Import PerformativeDetector.
Local Open Scope float_scope.

(** The display part of an iteration writes [face_cam_shown] and
    [force_top_counter] only. *)
Lemma update_display_keeps_holding_state (now : float) (self : t) :
  let self' := fst (fst (update_display now self)) in
  spotify self' = spotify self
  /\ is_holding self' = is_holding self
  /\ holding_start_time self' = holding_start_time self
  /\ holding_duration_threshold self' = holding_duration_threshold self
  /\ spotify_mode self' = spotify_mode self
  /\ spotify_mode_start_time self' = spotify_mode_start_time self
  /\ face_cam_delay self' = face_cam_delay self.
Proof.
  unfold update_display. destruct self as [c h st th m ms d sh k].
  cbn [spotify_mode spotify_mode_start_time face_cam_delay].
  destruct m; [ | cbn; repeat split; reflexivity ].
  match goal with |- context [if ge ?a ?b then _ else _] => destruct (ge a b) end;
    [ | cbn; repeat split; reflexivity ].
  match goal with |- context [if ?c then _ else _] => destruct c end;
    cbn; repeat split; reflexivity.
Qed.

(** An iteration feeds [holding_detected] and the clock to the debounce
    update, whose result the display part does not disturb. *)
Lemma step_holding_state (self : t) (f : Frame) :
  let updated := fst (update_holding (holding_detected f) (current_time f) self) in
  is_holding (fst (step self f)) = is_holding updated
  /\ holding_start_time (fst (step self f)) = holding_start_time updated
  /\ spotify_mode_start_time (fst (step self f)) = spotify_mode_start_time updated
  /\ spotify (fst (step self f)) = spotify updated.
Proof.
  unfold step.
  destruct (update_holding (holding_detected f) (current_time f) self)
    as [self1 eff1].
  pose proof (update_display_keeps_holding_state (current_time f) self1) as H.
  destruct (update_display (current_time f) self1) as [[self2 w] eff2].
  cbn in *. tauto.
Qed.

(** Held from 0.0 to 0.25 in steps of 0.05 with the default threshold: the
    frame at 0.2 does not confirm, the frame at 0.25 does, and [play_juna] is
    called there and only there. *)
Example scenario_hold :
  map (fun r => (status (fst r), snd r))
      (debounce_trace detector_with_spotify (held [0; 0.05; 0.1; 0.15; 0.2; 0.25]))
  = [(PENDING_HOLDING, []); (PENDING_HOLDING, []); (PENDING_HOLDING, []);
     (PENDING_HOLDING, []); (PENDING_HOLDING, []);
     (HOLDING, [call_play_juna; thread_start])].
Proof. vm_compute. reflexivity. Qed.

(** True at 0.0, false at 0.1, true again from 0.15 on: the pending time is
    reset at 0.1 and counted again from 0.15. *)
Example scenario_flicker :
  map (fun r => (status (fst r), holding_start_time (fst r)))
      (debounce_trace detector_with_spotify
         ((true, 0) :: (false, 0.1) :: held [0.15; 0.2; 0.25; 0.3; 0.4]))
  = [(PENDING_HOLDING, Some 0); (NOT_HOLDING, None);
     (PENDING_HOLDING, Some 0.15); (PENDING_HOLDING, Some 0.15);
     (PENDING_HOLDING, Some 0.15); (PENDING_HOLDING, Some 0.15);
     (HOLDING, Some 0.15)].
Proof. vm_compute. reflexivity. Qed.

(** HOLDING entered at 1.0, the signal true until 5.0 and then false: back to
    NOT_HOLDING with no effect at all on that frame. *)
Example scenario_release :
  map (fun r => (status (fst r), snd r))
      (debounce_trace detector_with_spotify
         (held [0.5; 1; 3; 5] ++ [(false, 5.05)]))
  = [(PENDING_HOLDING, []); (HOLDING, [call_play_juna; thread_start]);
     (HOLDING, []); (HOLDING, []); (NOT_HOLDING, [])].
Proof. vm_compute. reflexivity. Qed.

(** On that last frame the display part of the iteration, which still finds
    [spotify_mode] set, counts one more face-cam frame. *)
Example scenario_release_display :
  force_top_counter
    (fst (step (debounce_run detector_with_spotify (held [0.5; 1; 3; 5]))
               {| multi_hand_landmarks := None; current_time := 5.05 |}))
  = 1%Z.
Proof. vm_compute. reflexivity. Qed.

End Iteration.

(* ===================================================================== *)
(** ** More on the Spotify controller *)
(* ===================================================================== *)

Ltac break_hyps :=
  repeat match goal with
         | H : _ /\ _ |- _ => destruct H
         | H : _ \/ _ |- _ => destruct H
         | H : exists _, _ |- _ => destruct H
         | H : Ok _ = Ok _ |- _ => injection H as H; subst
         end.

Section ControllerInit.

Import spotipy SpotifyController.

(** X1.  After [__init__] the client is missing exactly when a credential is
    missing or empty, or the device listing raised; a request is sent exactly
    when both credentials are there, and it is the device listing alone. *)
Theorem init_client_missing_iff (env : Environ) (r : Remote) :
  (sp (fst (__init__ env r)) = None
   <-> falsy_str (SPOTIFY_CLIENT_ID env) = true
       \/ falsy_str (SPOTIFY_CLIENT_SECRET env) = true
       \/ exists e, devices_reply r = Raise e)
  /\ (snd (__init__ env r)
      = if falsy_str (SPOTIFY_CLIENT_ID env)
           || falsy_str (SPOTIFY_CLIENT_SECRET env)
        then [] else [request devices]).
Proof.
  unfold __init__, _initialize_spotify.
  destruct (falsy_str (SPOTIFY_CLIENT_ID env)) eqn:Hid; cbn [orb].
  { split; [ | reflexivity ]. cbn. split; auto. }
  destruct (falsy_str (SPOTIFY_CLIENT_SECRET env)) eqn:Hsecret; cbn [orb].
  { split; [ | reflexivity ]. cbn. split; auto. }
  destruct (devices_reply r) as [[ | d ds] | e]; cbn.
  - split; [ | reflexivity ]. split; [ discriminate | ].
    intros [H | [H | [e H]]]; discriminate.
  - split; [ | reflexivity ]. split; [ discriminate | ].
    intros [H | [H | [e H]]]; discriminate.
  - split; [ | reflexivity ]. split; [ | reflexivity ].
    intros _. right; right. exists e. reflexivity.
Qed.

(** X2.  After [__init__] the controller is available exactly when both
    credentials are non-empty and the device listing returned at least one
    device; the device kept is then the first one listed.  The target track
    is Juna in every case. *)
Theorem init_available_iff (env : Environ) (r : Remote) :
  (is_spotify_available (fst (__init__ env r)) = true
   <-> falsy_str (SPOTIFY_CLIENT_ID env) = false
       /\ falsy_str (SPOTIFY_CLIENT_SECRET env) = false
       /\ exists d ds,
            devices_reply r = Ok (d :: ds)
            /\ device_id (fst (__init__ env r)) = Some (id d))
  /\ target_track_uri (fst (__init__ env r)) = juna
  /\ SpotifyController.is_playing (fst (__init__ env r)) = false.
Proof.
  unfold __init__, _initialize_spotify, is_spotify_available.
  destruct (falsy_str (SPOTIFY_CLIENT_ID env)) eqn:Hid; cbn [orb].
  { cbn. repeat split; try discriminate. intros (H & _). discriminate. }
  destruct (falsy_str (SPOTIFY_CLIENT_SECRET env)) eqn:Hsecret; cbn [orb].
  { cbn. repeat split; try discriminate. intros (_ & H & _). discriminate. }
  destruct (devices_reply r) as [[ | d ds] | e]; cbn.
  - repeat split; try discriminate.
    intros (_ & _ & d & ds & H & _). discriminate.
  - repeat split. exists d, ds. split; reflexivity.
  - repeat split; try discriminate.
    intros (_ & _ & d & ds & H & _). discriminate.
Qed.

End ControllerInit.

Section ControllerMethods.

Import spotipy SpotifyController.

(** X3.  [show_spotify_window] spawns [osascript] at most once per call and
    never when the window is recorded as opened; the window is recorded as
    opened exactly when it already was or the spawn did not raise, so that a
    call that follows a successful one does nothing, whatever the world does
    then, and a call that follows a failed one tries again. *)
Theorem show_spotify_window_once (r r' : Remote) (self : t) :
  (window_opened (fst (show_spotify_window r self)) = true
   <-> window_opened self = true \/ exists u, popen_reply r = Ok u)
  /\ snd (show_spotify_window r self)
     = (if window_opened self then [] else [popen_osascript])
  /\ (window_opened (fst (show_spotify_window r self)) = true ->
      show_spotify_window r' (fst (show_spotify_window r self))
      = (fst (show_spotify_window r self), []))
  /\ (window_opened (fst (show_spotify_window r self)) = false ->
      fst (show_spotify_window r self) = self
      /\ snd (show_spotify_window r' (fst (show_spotify_window r self)))
         = [popen_osascript]).
Proof.
  assert (Hagain : forall s : t, window_opened s = true ->
                                 show_spotify_window r' s = (s, [])).
  { intros s Hs. unfold show_spotify_window. rewrite Hs. reflexivity. }
  assert (Hretry : forall s : t, window_opened s = false ->
                                 snd (show_spotify_window r' s) = [popen_osascript]).
  { intros s Hs. unfold show_spotify_window. rewrite Hs.
    destruct (popen_reply r'); reflexivity. }
  split; [ | split; [ | split ]].
  - unfold show_spotify_window. destruct (window_opened self) eqn:Hw.
    + cbn [fst]. rewrite Hw. tauto.
    + destruct (popen_reply r) as [u | e]; cbn [fst].
      * cbn. split; [ intros _; right; exists u; reflexivity | reflexivity ].
      * rewrite Hw. split; [ discriminate | ].
        intros [Hx | [u Hx]]; discriminate.
  - unfold show_spotify_window. destruct (window_opened self);
      [ reflexivity | destruct (popen_reply r); reflexivity ].
  - apply Hagain.
  - intros Hclosed. split; [ | apply Hretry; exact Hclosed ].
    unfold show_spotify_window in *. destruct (window_opened self);
      [ reflexivity | ].
    destruct (popen_reply r); [ discriminate Hclosed | reflexivity ].
Qed.

Lemma show_spotify_window_once_witness :
  window_opened (fst (show_spotify_window nothing_playing connected)) = true
  /\ show_spotify_window query_fails
       (fst (show_spotify_window nothing_playing connected))
     = (fst (show_spotify_window nothing_playing connected), []).
Proof.
  assert (H : window_opened (fst (show_spotify_window nothing_playing connected))
              = true) by (vm_compute; reflexivity).
  split; [ exact H | ].
  destruct (show_spotify_window_once nothing_playing query_fails connected)
    as (_ & _ & Hnext & _).
  exact (Hnext H).
Defined.

(** X4.  [pause] does nothing without a client or when nothing is recorded
    as playing.  Otherwise it sends one pause request, for the configured
    device, and records playback as stopped only if the request did not
    raise.  After a successful [pause] a second one does nothing. *)
Theorem pause_sends_one_request_when_playing (r r' : Remote) (self : t) :
  (sp self = None \/ SpotifyController.is_playing self = false ->
   pause r self = (self, []))
  /\ (sp self <> None -> SpotifyController.is_playing self = true ->
      snd (pause r self) = [request (pause_playback (device_id self))]
      /\ (SpotifyController.is_playing (fst (pause r self)) = false
          <-> exists u, pause_playback_reply r = Ok u)
      /\ ((exists e, pause_playback_reply r = Raise e) ->
          fst (pause r self) = self)
      /\ ((exists u, pause_playback_reply r = Ok u) ->
          pause r' (fst (pause r self)) = (fst (pause r self), []))).
Proof.
  unfold pause at 1 2 3 4 6 7. split.
  - intros [H | H]; rewrite H; cbn; [ reflexivity | ].
    destruct (sp self); reflexivity.
  - intros Hsp Hplay. destruct (sp self) as [client | ] eqn:Esp; [ | congruence ].
    rewrite Hplay. cbn [is_some negb orb].
    destruct (pause_playback_reply r) as [u | e]; cbn [fst snd].
    + repeat split; auto.
      * intros _. exists u. reflexivity.
      * intros [e H]. discriminate.
      * intros _. unfold pause. cbn. rewrite Esp. reflexivity.
    + repeat split; auto.
      * rewrite Hplay. discriminate.
      * intros [u H]. discriminate.
      * intros [u H]. discriminate.
Qed.

Lemma pause_sends_one_request_when_playing_witness :
  sp (attempt_state nothing_playing connected) <> None
  /\ SpotifyController.is_playing (attempt_state nothing_playing connected) = true
  /\ snd (pause nothing_playing (attempt_state nothing_playing connected))
     = [request (pause_playback (Some "laptop"%string))]
  /\ pause nothing_playing disabled = (disabled, []).
Proof.
  assert (Hsp : sp (attempt_state nothing_playing connected) <> None)
    by (vm_compute; discriminate).
  assert (Hplay : SpotifyController.is_playing
                    (attempt_state nothing_playing connected) = true)
    by (vm_compute; reflexivity).
  split; [ exact Hsp | ]. split; [ exact Hplay | ]. split.
  - destruct (pause_sends_one_request_when_playing nothing_playing nothing_playing
                (attempt_state nothing_playing connected)) as [_ H].
    destruct (H Hsp Hplay) as [Hreq _]. exact Hreq.
  - exact (proj1 (pause_sends_one_request_when_playing nothing_playing
                    nothing_playing disabled) (or_introl eq_refl)).
Defined.

(** X5.  A background attempt never touches the client, the device, the
    target track or [current_track_uri]; it can turn [is_playing] and
    [window_opened] on but never off; it sends at most two requests, never a
    pause request, and spawns [osascript] at most once. *)
Theorem play_juna_async_preserves (r : Remote) (self : t) :
  sp (attempt_state r self) = sp self
  /\ device_id (attempt_state r self) = device_id self
  /\ target_track_uri (attempt_state r self) = target_track_uri self
  /\ current_track_uri (attempt_state r self) = current_track_uri self
  /\ (SpotifyController.is_playing self = true ->
      SpotifyController.is_playing (attempt_state r self) = true)
  /\ (window_opened self = true -> window_opened (attempt_state r self) = true)
  /\ (count is_request (attempt_effects r self) <= 2)%nat
  /\ count is_pause_playback (attempt_effects r self) = 0%nat
  /\ (count is_popen_osascript (attempt_effects r self) <= 1)%nat.
Proof.
  unfold attempt_state, attempt_effects, _play_juna_async.
  destruct (sp self) as [client | ] eqn:Esp;
    [ | cbn; repeat split; auto; lia ].
  destruct (current_playback_reply r) as [current | e];
    [ | cbn; repeat split; auto; lia ].
  match goal with |- context [if ?c then _ else _] => destruct c end;
    [ cbn; repeat split; auto; lia | ].
  destruct (start_playback_reply r) as [u | e];
    [ | cbn; repeat split; auto; lia ].
  unfold show_spotify_window. cbn [window_opened set_is_playing].
  destruct (window_opened self) eqn:Hw.
  - cbn. repeat split; auto; lia.
  - destruct (popen_reply r); cbn; repeat split; auto; try discriminate; lia.
Qed.

Lemma play_juna_async_preserves_witness :
  SpotifyController.is_playing (attempt_state nothing_playing connected) = true
  /\ SpotifyController.is_playing
       (attempt_state start_fails (attempt_state nothing_playing connected))
     = true.
Proof.
  assert (H : SpotifyController.is_playing
                (attempt_state nothing_playing connected) = true)
    by (vm_compute; reflexivity).
  split; [ exact H | ].
  destruct (play_juna_async_preserves start_fails
              (attempt_state nothing_playing connected))
    as (_ & _ & _ & _ & Hkeep & _).
  exact (Hkeep H).
Defined.

(** X6.  A background attempt returns True exactly when there is a client,
    the status query did not raise and either it reported the target track as
    playing or the start command did not raise.  It records playback as
    started exactly when it was recorded so before or the start command was
    sent and did not raise. *)
Theorem play_juna_async_result (r : Remote) (self : t) :
  (attempt_result r self = true
   <-> sp self <> None
       /\ exists current,
            current_playback_reply r = Ok current
            /\ (target_is_playing self current = true
                \/ exists u, start_playback_reply r = Ok u))
  /\ (SpotifyController.is_playing (attempt_state r self) = true
      <-> SpotifyController.is_playing self = true
          \/ (sp self <> None
              /\ exists current u,
                   current_playback_reply r = Ok current
                   /\ target_is_playing self current = false
                   /\ start_playback_reply r = Ok u)).
Proof.
  unfold attempt_state, attempt_result, _play_juna_async.
  destruct (sp self) as [client | ] eqn:Esp.
  2: { cbn [fst snd]. split; split; intros H; break_hyps;
       try congruence; try discriminate; auto. }
  destruct (current_playback_reply r) as [current | e].
  2: { cbn [fst snd]. split; split; intros H; break_hyps;
       try congruence; try discriminate; auto. }
  fold (target_is_playing self current).
  destruct (target_is_playing self current) eqn:Ht.
  { cbn [fst snd]. split; split; intros H; break_hyps;
      try congruence; try discriminate; auto.
    split; [ discriminate | ]. exists current. auto. }
  destruct (start_playback_reply r) as [u | e].
  - destruct (show_spotify_window r (set_is_playing true self))
      as [self2 shown] eqn:Eshow.
    assert (Hp : SpotifyController.is_playing self2 = true).
    { unfold show_spotify_window in Eshow.
      destruct (window_opened (set_is_playing true self));
        [ | destruct (popen_reply r) ];
        injection Eshow as <- _; reflexivity. }
    cbn [fst snd]. split; split; intros H; break_hyps; auto.
    + split; [ discriminate | ]. exists current. split; [ reflexivity | ].
      right. exists u. reflexivity.
    + right. split; [ discriminate | ]. exists current, u. auto.
  - cbn [fst snd]. split; split; intros H; break_hyps;
      try congruence; try discriminate; auto.
Qed.

(** X7.  The flag [is_playing] follows the start commands of this controller,
    not the remote player.  After an attempt that found the target track
    already playing, a controller that had not started playback itself still
    records nothing as playing, and its [pause] sends no request.  After an
    attempt whose start command went through, [pause] sends one pause request
    to the device the start command named. *)
Theorem pause_after_attempt (r r' : Remote) (self : t)
  (current : option Playback) :
  sp self <> None ->
  SpotifyController.is_playing self = false ->
  current_playback_reply r = Ok current ->
  (target_is_playing self current = true ->
   pause r' (attempt_state r self) = (attempt_state r self, []))
  /\ (target_is_playing self current = false ->
      (exists u, start_playback_reply r = Ok u) ->
      In (request (start_playback (device_id self) [target_track_uri self]))
         (attempt_effects r self)
      /\ snd (pause r' (attempt_state r self))
         = [request (pause_playback (device_id self))]).
Proof.
  intros Hsp Hplay Hq.
  unfold attempt_state, attempt_effects, _play_juna_async.
  destruct (sp self) as [client | ] eqn:Esp; [ clear Hsp | congruence ].
  rewrite Hq. fold (target_is_playing self current). split; intros Ht; rewrite Ht.
  - cbn [fst snd]. unfold pause. rewrite Hplay, Esp. reflexivity.
  - intros [u Hs]. rewrite Hs.
    assert (Hshow : exists w shown,
               show_spotify_window r (set_is_playing true self)
               = (set_window_opened w (set_is_playing true self), shown)).
    { unfold show_spotify_window.
      destruct (window_opened (set_is_playing true self)) eqn:Hw.
      - exists true, []. f_equal. destruct self; cbn in *; subst; reflexivity.
      - destruct (popen_reply r).
        + exists true, [popen_osascript]. reflexivity.
        + exists false, [popen_osascript]. f_equal.
          destruct self; cbn in *; subst; reflexivity. }
    destruct Hshow as (w & shown & ->). cbn [fst snd]. split.
    + cbn. auto.
    + unfold pause. cbn. rewrite Esp. cbn.
      destruct (pause_playback_reply r'); reflexivity.
Qed.

Lemma pause_after_attempt_witness :
  sp connected <> None
  /\ SpotifyController.is_playing connected = false
  /\ pause nothing_playing (attempt_state juna_playing connected)
     = (attempt_state juna_playing connected, [])
  /\ snd (pause nothing_playing (attempt_state nothing_playing connected))
     = [request (pause_playback (device_id connected))].
Proof.
  assert (Hsp : sp connected <> None) by (vm_compute; discriminate).
  assert (Hplay : SpotifyController.is_playing connected = false) by reflexivity.
  split; [ exact Hsp | ]. split; [ exact Hplay | ]. split.
  - destruct (pause_after_attempt juna_playing nothing_playing connected
                (Some {| item := Some {| uri := juna |};
                         spotipy.is_playing := true |})
                Hsp Hplay eq_refl) as [H _].
    apply H. vm_compute. reflexivity.
  - destruct (pause_after_attempt nothing_playing nothing_playing connected
                None Hsp Hplay eq_refl) as [_ H].
    destruct (H eq_refl (ex_intro _ tt eq_refl)) as [_ Hp]. exact Hp.
Defined.

End ControllerMethods.

(* ===================================================================== *)
(** ** More on the classifiers *)
(* ===================================================================== *)

Section ClassifierEdges.

Import mp PerformativeDetector.
Local Open Scope float_scope.

(** NaN goes through the arithmetic of the distance and fails every
    comparison. *)
Lemma is_nan_sub_l (a b : float) : is_nan a -> is_nan (a - b).
Proof.
  unfold is_nan. intros H. rewrite FloatAxioms.sub_spec, H. reflexivity.
Qed.

Lemma is_nan_sub_r (a b : float) : is_nan b -> is_nan (a - b).
Proof.
  unfold is_nan. intros H. rewrite FloatAxioms.sub_spec, H.
  destruct (Prim2SF a); reflexivity.
Qed.

Lemma is_nan_pow2 (a : float) : is_nan a -> is_nan (pow2 a).
Proof.
  unfold is_nan, pow2. intros H. rewrite FloatAxioms.mul_spec, H. reflexivity.
Qed.

Lemma is_nan_add_l (a b : float) : is_nan a -> is_nan (a + b).
Proof.
  unfold is_nan. intros H. rewrite FloatAxioms.add_spec, H. reflexivity.
Qed.

Lemma is_nan_sqrt (a : float) : is_nan a -> is_nan (np_sqrt a).
Proof.
  unfold is_nan, np_sqrt. intros H. rewrite FloatAxioms.sqrt_spec, H.
  reflexivity.
Qed.

Lemma is_nan_not_lt (a b : float) : is_nan a -> lt a b = false.
Proof.
  unfold is_nan, lt. intros H. rewrite FloatAxioms.ltb_spec, H. reflexivity.
Qed.

Lemma hand_center_no_points (h : NormalizedLandmarkList) :
  landmark h = [] -> is_nan (fst (hand_center h)).
Proof.
  intros E. unfold hand_center. rewrite E. vm_compute. reflexivity.
Qed.


(** X9.  Of the 21 points only six decide the single-hand result: the wrist,
    the thumb tip, and the tips and knuckles of the index and middle fingers.
    Two complete hands that agree on these get the same answer. *)
Theorem detect_single_hand_holding_reads_six_points
  (h h' : NormalizedLandmarkList) (image_shape : list Z) :
  (21 <= List.length (landmark h))%nat ->
  (21 <= List.length (landmark h'))%nat ->
  (forall i, In i [0; 4; 5; 8; 9; 12]%nat -> point h i = point h' i) ->
  detect_single_hand_holding h image_shape
  = detect_single_hand_holding h' image_shape.
Proof.
  intros Hlen Hlen' Hsame.
  rewrite (detect_single_hand_holding_full h image_shape Hlen),
          (detect_single_hand_holding_full h' image_shape Hlen').
  unfold wrist_in_center, below_knuckle, thumb_near_index.
  rewrite (Hsame 0%nat), (Hsame 4%nat), (Hsame 5%nat), (Hsame 8%nat),
          (Hsame 9%nat), (Hsame 12%nat) by (cbn; tauto).
  reflexivity.
Qed.

(** A gripping hand, and the same hand with ring and little finger
    stretched out. *)
Lemma detect_single_hand_holding_reads_six_points_witness :
  detect_single_hand_holding (hand_at {| x := 0.5; y := 0.5 |} [])
    [720; 1280; 3]%Z
  = detect_single_hand_holding
      (hand_at {| x := 0.5; y := 0.5 |}
         [(16%nat, {| x := 0.6; y := 0.1 |}); (20%nat, {| x := 0.7; y := 0.1 |})])
      [720; 1280; 3]%Z.
Proof.
  apply detect_single_hand_holding_reads_six_points.
  - cbn; lia.
  - cbn; lia.
  - intros i Hi. cbn in Hi.
    repeat (destruct Hi as [<- | Hi]; [ reflexivity | ]). contradiction.
Defined.

(** X10.  [detect_holding_gesture] raises exactly when it is given two hands
    or more together with a shape of fewer than two entries, and what it
    raises is ValueError; with fewer than two hands the shape is not looked
    at. *)
Theorem detect_holding_gesture_raises_iff
  (hand_landmarks_list : list NormalizedLandmarkList) (image_shape : list Z) :
  (detect_holding_gesture hand_landmarks_list image_shape = Raise ValueError
   <-> (2 <= List.length hand_landmarks_list)%nat
       /\ (List.length image_shape < 2)%nat)
  /\ (forall e, detect_holding_gesture hand_landmarks_list image_shape = Raise e ->
                e = ValueError)
  /\ ((List.length hand_landmarks_list < 2)%nat ->
      detect_holding_gesture hand_landmarks_list image_shape = Ok false).
Proof.
  destruct hand_landmarks_list as [ | h0 [ | h1 rest]].
  - cbn. repeat split; intros; break_hyps; try discriminate; try lia.
  - cbn. repeat split; intros; break_hyps; try discriminate; try lia.
  - destruct (Nat.le_gt_cases 2 (List.length image_shape)) as [Hs | Hs].
    + rewrite (detect_holding_gesture_two h0 h1 rest image_shape Hs).
      cbn [List.length].
      repeat split; intros; break_hyps; try discriminate; try lia.
    + assert (E : detect_holding_gesture (h0 :: h1 :: rest) image_shape
                  = Raise ValueError).
      { destruct image_shape as [ | a [ | b more]]; cbn in Hs; try lia;
          reflexivity. }
      rewrite E. cbn [List.length].
      repeat split; intros; break_hyps; try congruence; try lia.
Qed.

(** X11.  Hands after the second are ignored: the result on any list of two
    hands or more is the result on its first two. *)
Theorem detect_holding_gesture_first_two
  (h0 h1 : NormalizedLandmarkList) (rest : list NormalizedLandmarkList)
  (image_shape : list Z) :
  detect_holding_gesture (h0 :: h1 :: rest) image_shape
  = detect_holding_gesture [h0; h1] image_shape.
Proof.
  destruct (Nat.le_gt_cases 2 (List.length image_shape)) as [Hs | Hs].
  - rewrite (detect_holding_gesture_two h0 h1 rest image_shape Hs),
            (detect_holding_gesture_two h0 h1 [] image_shape Hs).
    reflexivity.
  - destruct image_shape as [ | a [ | b more]]; cbn in Hs; try lia; reflexivity.
Qed.

(** X12.  A hand without any point has no centroid: the mean of nothing is
    NaN, the distance to it is NaN, and the two-hand rule answers false
    whatever the other hand is. *)
Theorem detect_holding_gesture_hand_without_points
  (h0 h1 : NormalizedLandmarkList) (rest : list NormalizedLandmarkList)
  (image_shape : list Z) :
  (2 <= List.length image_shape)%nat ->
  landmark h0 = [] \/ landmark h1 = [] ->
  is_nan (euclid (hand_center h0) (hand_center h1))
  /\ detect_holding_gesture (h0 :: h1 :: rest) image_shape = Ok false.
Proof.
  intros Hs Hempty.
  assert (Hnan : is_nan (euclid (hand_center h0) (hand_center h1))).
  { unfold euclid. apply is_nan_sqrt, is_nan_add_l, is_nan_pow2.
    destruct Hempty as [E | E].
    - apply is_nan_sub_l, hand_center_no_points, E.
    - apply is_nan_sub_r, hand_center_no_points, E. }
  split; [ exact Hnan | ].
  rewrite (detect_holding_gesture_two h0 h1 rest image_shape Hs).
  rewrite (is_nan_not_lt _ 0.5 Hnan). reflexivity.
Qed.

Lemma detect_holding_gesture_hand_without_points_witness :
  (2 <= List.length [720; 1280; 3]%Z)%nat
  /\ detect_holding_gesture
       [hand_at {| x := 0.5; y := 0.5 |} []; {| landmark := [] |}]
       [720; 1280; 3]%Z = Ok false.
Proof.
  split; [ cbn; lia | ].
  apply (detect_holding_gesture_hand_without_points
           (hand_at {| x := 0.5; y := 0.5 |} []) {| landmark := [] |} []
           [720; 1280; 3]%Z).
  - cbn; lia.
  - right. reflexivity.
Defined.

End ClassifierEdges.

(* ===================================================================== *)
(** ** More on the debounce machine *)
(* ===================================================================== *)

Section DebounceExtras.

Import PerformativeDetector.
Local Open Scope float_scope.

(** The four things an update can do. *)
Lemma update_holding_cases (self : t) (signal : bool) (now : float) :
  (signal = true /\ holding_start_time self <> None
   /\ update_holding signal now self = (self, []))
  \/ (signal = true /\ holding_start_time self = None
      /\ update_holding signal now self = (pending now self, []))
  \/ (signal = true /\ is_holding self = false
      /\ holding_start_time self <> None
      /\ update_holding signal now self = (confirm now self, trigger self))
  \/ (signal = false /\ update_holding signal now self = (release self, [])).
Proof.
  destruct signal.
  - destruct (holding_start_time self) as [start | ] eqn:E.
    + destruct (is_holding self) eqn:Hh.
      * left. repeat split; try congruence.
        apply (update_holding_stay self now start E Hh).
      * destruct (exceeds self start now) eqn:Hx.
        -- right; right; left. repeat split; try congruence.
           apply (update_holding_confirm self now start E Hh Hx).
        -- left. repeat split; try congruence.
           apply (update_holding_wait self now start E Hx).
    + right; left. repeat split. apply (update_holding_fresh self now E).
  - right; right; right. split; [ reflexivity | ].
    apply update_holding_release.
Qed.

Lemma debounce_trace_cons (self : t) (signal : bool) (now : float)
  (rest : list (bool * float)) :
  debounce_trace self ((signal, now) :: rest)
  = update_holding signal now self
    :: debounce_trace (fst (update_holding signal now self)) rest.
Proof. reflexivity. Qed.

Lemma effects_cons (self : t) (eff : list Effect) (tr : list (t * list Effect)) :
  effects ((self, eff) :: tr) = eff ++ effects tr.
Proof. reflexivity. Qed.

Lemma count_app (p : Effect -> bool) (l1 l2 : list Effect) :
  count p (l1 ++ l2) = (count p l1 + count p l2)%nat.
Proof. unfold count. rewrite filter_app, length_app. reflexivity. Qed.

(** X13.  Over any sequence of signals and times, from any state: when the
    controller is available [play_juna] is called once per transition into
    HOLDING, each call starting one thread, and when it is not available
    [play_juna] is never called; the updates themselves send no request and
    spawn nothing. *)
Theorem play_juna_once_per_confirmation (self : t)
  (inputs : list (bool * float)) :
  let trace := debounce_trace self inputs in
  count is_call_play_juna (effects trace)
  = (if SpotifyController.is_spotify_available (spotify self)
     then confirmations (is_holding self) trace else 0%nat)
  /\ count is_thread_start (effects trace)
     = count is_call_play_juna (effects trace)
  /\ count is_request (effects trace) = 0%nat
  /\ count is_popen_osascript (effects trace) = 0%nat.
Proof.
  revert self. induction inputs as [ | [signal now] rest IH]; intros self.
  - cbn. destruct (SpotifyController.is_spotify_available (spotify self));
      repeat split; reflexivity.
  - cbn zeta. rewrite debounce_trace_cons.
    destruct (update_holding_cases self signal now)
      as [(_ & _ & E) | [(_ & _ & E) | [(_ & Hh & _ & E) | (_ & E)]]];
      rewrite E; cbn [fst]; rewrite effects_cons, !count_app;
      cbn [confirmations].
    + specialize (IH self). cbn zeta in IH. destruct IH as (I1 & I2 & I3 & I4).
      rewrite I1, I3, I4. rewrite I1 in I2. rewrite I2.
      destruct (is_holding self); cbn; repeat split; reflexivity.
    + specialize (IH (pending now self)). cbn zeta in IH.
      destruct IH as (I1 & I2 & I3 & I4).
      rewrite I1, I3, I4. rewrite I1 in I2. rewrite I2.
      cbn [pending is_holding spotify set_holding_start_time].
      destruct (is_holding self); cbn; repeat split; reflexivity.
    + specialize (IH (confirm now self)). cbn zeta in IH.
      destruct IH as (I1 & I2 & I3 & I4).
      rewrite I1, I3, I4. rewrite I1 in I2. rewrite I2.
      cbn [confirm is_holding spotify set_spotify_mode_start_time
             set_spotify_mode set_is_holding].
      rewrite Hh. unfold trigger.
      destruct (SpotifyController.is_spotify_available (spotify self));
        cbn; repeat split; reflexivity.
    + specialize (IH (release self)). cbn zeta in IH.
      destruct IH as (I1 & I2 & I3 & I4).
      rewrite I1, I3, I4. rewrite I1 in I2. rewrite I2.
      cbn [release is_holding spotify set_holding_start_time set_is_holding].
      destruct (is_holding self); cbn; repeat split; reflexivity.
Qed.

(** X14.  A transition into HOLDING needs a false frame since the previous
    one: over any input sequence the number of transitions is at most the
    number of false frames, plus one if the machine was not holding at the
    start. *)
Theorem confirmations_bounded_by_false_frames (self : t)
  (inputs : list (bool * float)) :
  (confirmations (is_holding self) (debounce_trace self inputs)
   <= false_frames inputs + (if is_holding self then 0 else 1))%nat.
Proof.
  revert self. induction inputs as [ | [signal now] rest IH]; intros self.
  - cbn. lia.
  - rewrite debounce_trace_cons. unfold false_frames in *.
    cbn [filter fst].
    destruct (update_holding_cases self signal now)
      as [(-> & _ & E) | [(-> & _ & E) | [(-> & Hh & _ & E) | (-> & E)]]];
      rewrite E; cbn [fst negb confirmations].
    + specialize (IH self). destruct (is_holding self); cbn in *; lia.
    + specialize (IH (pending now self)).
      cbn [pending is_holding set_holding_start_time] in *.
      destruct (is_holding self); cbn in *; lia.
    + specialize (IH (confirm now self)).
      cbn [confirm is_holding set_spotify_mode_start_time set_spotify_mode
             set_is_holding] in *.
      rewrite Hh. cbn in *. lia.
    + specialize (IH (release self)).
      cbn [release is_holding set_holding_start_time set_is_holding] in *.
      destruct (is_holding self); cbn in *; lia.
Qed.

(** Isolated true frames, from a state that is not holding and has nothing
    pending unless the previous signal was true. *)
Lemma isolated_frames_keep_quiet (inputs : list (bool * float)) :
  forall (self : t) (previous : bool),
    is_holding self = false ->
    (previous = false -> holding_start_time self = None) ->
    isolated previous inputs = true ->
    Forall (fun r => is_holding (fst r) = false /\ snd r = [])
           (debounce_trace self inputs).
Proof.
  induction inputs as [ | [signal now] rest IH]; intros self previous Hh Hp Hiso.
  - constructor.
  - cbn [isolated] in Hiso. apply andb_true_iff in Hiso as [Hpair Hrest].
    rewrite debounce_trace_cons.
    destruct signal.
    + assert (previous = false) as -> by (destruct previous; [ discriminate | reflexivity ]).
      rewrite (update_holding_fresh self now (Hp eq_refl)). cbn [fst].
      constructor; [ split; [ exact Hh | reflexivity ] | ].
      apply (IH (pending now self) true); [ exact Hh | discriminate | exact Hrest ].
    + rewrite update_holding_release. cbn [fst].
      constructor; [ split; reflexivity | ].
      apply (IH (release self) false); [ reflexivity | reflexivity | exact Hrest ].
Qed.

(** X15.  Flicker is suppressed whatever the threshold: from NOT_HOLDING, an
    input sequence in which no two consecutive frames carry a true signal
    never reaches HOLDING and never calls [play_juna]. *)
Theorem isolated_true_frames_never_confirm (self : t)
  (inputs : list (bool * float)) :
  is_holding self = false ->
  holding_start_time self = None ->
  isolated false inputs = true ->
  Forall (fun r => is_holding (fst r) = false /\ snd r = [])
         (debounce_trace self inputs)
  /\ is_holding (debounce_run self inputs) = false.
Proof.
  intros Hh Hn Hiso.
  pose proof (isolated_frames_keep_quiet inputs self false Hh (fun _ => Hn) Hiso)
    as Hquiet.
  split; [ exact Hquiet | ].
  clear Hn Hiso. revert self Hh Hquiet.
  induction inputs as [ | [signal now] rest IH]; intros self Hh Hquiet.
  - exact Hh.
  - rewrite debounce_run_cons. rewrite debounce_trace_cons in Hquiet.
    inversion Hquiet as [ | r tr [Hr _] Htr]; subst.
    apply IH; assumption.
Qed.

Lemma isolated_true_frames_never_confirm_witness :
  is_holding detector_with_spotify = false
  /\ holding_start_time detector_with_spotify = None
  /\ isolated false [(true, 0); (false, 1); (true, 2); (false, 3); (true, 4)]
     = true
  /\ is_holding
       (debounce_run detector_with_spotify
          [(true, 0); (false, 1); (true, 2); (false, 3); (true, 4)]) = false.
Proof.
  split; [ reflexivity | ]. split; [ reflexivity | ]. split; [ reflexivity | ].
  apply (isolated_true_frames_never_confirm detector_with_spotify
           [(true, 0); (false, 1); (true, 2); (false, 3); (true, 4)]);
    reflexivity.
Defined.

(** What every update keeps, once true. *)
Lemma update_holding_keeps (self : t) (signal : bool) (now : float) :
  let self' := fst (update_holding signal now self) in
  spotify self' = spotify self
  /\ holding_duration_threshold self' = holding_duration_threshold self
  /\ face_cam_delay self' = face_cam_delay self
  /\ face_cam_shown self' = face_cam_shown self
  /\ force_top_counter self' = force_top_counter self
  /\ (spotify_mode self = true -> spotify_mode self' = true)
  /\ ((spotify_mode self = true <-> spotify_mode_start_time self <> None) ->
      (spotify_mode self' = true <-> spotify_mode_start_time self' <> None))
  /\ ((is_holding self = true -> spotify_mode self = true) ->
      (is_holding self' = true -> spotify_mode self' = true))
  /\ (is_holding self' = true -> holding_start_time self' <> None).
Proof.
  destruct (update_holding_cases self signal now)
    as [(_ & Hset & E) | [(_ & _ & E) | [(_ & _ & Hset & E) | (_ & E)]]];
    rewrite E; cbn; repeat split; intros; break_hyps;
    try tauto; try congruence; try discriminate.
Qed.

(** X16.  Every state the debounce updates can reach from a freshly built
    detector satisfies: Spotify mode is on exactly when its start time is
    set; a holding machine is in Spotify mode and has a pending time; the
    controller, the threshold of 0.2 and the face-cam delay of 1.0 are the
    ones the detector was built with. *)
Theorem reachable_holding_state (controller : SpotifyController.t)
  (inputs : list (bool * float)) :
  let self := debounce_run (__init__ controller) inputs in
  (spotify_mode self = true <-> spotify_mode_start_time self <> None)
  /\ (is_holding self = true ->
      spotify_mode self = true /\ holding_start_time self <> None)
  /\ spotify self = controller
  /\ holding_duration_threshold self = 0.2
  /\ face_cam_delay self = 1.0.
Proof.
  cbn zeta.
  assert (Hgen : forall s : t,
             (spotify_mode s = true <-> spotify_mode_start_time s <> None) ->
             (is_holding s = true ->
              spotify_mode s = true /\ holding_start_time s <> None) ->
             let s' := debounce_run s inputs in
             (spotify_mode s' = true <-> spotify_mode_start_time s' <> None)
             /\ (is_holding s' = true ->
                 spotify_mode s' = true /\ holding_start_time s' <> None)
             /\ spotify s' = spotify s
             /\ holding_duration_threshold s' = holding_duration_threshold s
             /\ face_cam_delay s' = face_cam_delay s).
  { induction inputs as [ | [signal now] rest IH]; intros s Hm Hh.
    - cbn. repeat split; tauto.
    - cbn zeta. rewrite debounce_run_cons.
      pose proof (update_holding_keeps s signal now) as K. cbn zeta in K.
      destruct K as (Ks & Kt & Kd & _ & _ & _ & Km & Khm & Kp).
      specialize (IH (fst (update_holding signal now s))).
      cbn zeta in IH.
      destruct IH as (I1 & I2 & I3 & I4 & I5).
      + apply Km, Hm.
      + intros Hx. split; [ apply Khm; tauto | apply Kp; exact Hx ].
      + rewrite I3, I4, I5, Ks, Kt, Kd. repeat split; tauto. }
  apply (Hgen (__init__ controller)); cbn.
  - split; [ discriminate | congruence ].
  - discriminate.
Qed.

(** X17.  Spotify mode is never left: once [spotify_mode] is set it stays set
    under every later input, and so does its start time once set. *)
Theorem spotify_mode_is_permanent (self : t) (inputs : list (bool * float)) :
  (spotify_mode self = true ->
   spotify_mode (debounce_run self inputs) = true)
  /\ (spotify_mode_start_time self <> None ->
      spotify_mode_start_time (debounce_run self inputs) <> None).
Proof.
  revert self. induction inputs as [ | [signal now] rest IH]; intros self.
  - split; intros H; exact H.
  - rewrite debounce_run_cons.
    destruct (IH (fst (update_holding signal now self))) as [I1 I2].
    destruct (update_holding_cases self signal now)
      as [(_ & Hset & E) | [(_ & _ & E) | [(_ & _ & Hset & E) | (_ & E)]]];
      rewrite E in *; cbn [fst] in *; split; intros H;
      [ apply I1 | apply I2 | apply I1 | apply I2
        | apply I1 | apply I2 | apply I1 | apply I2 ];
      cbn; try exact H; try reflexivity; try discriminate.
Qed.

(** After a confirmation at 0.25, through a release and further frames. *)
Lemma spotify_mode_is_permanent_witness :
  spotify_mode (debounce_run detector_with_spotify (held [0; 0.25])) = true
  /\ spotify_mode
       (debounce_run (debounce_run detector_with_spotify (held [0; 0.25]))
          [(false, 5); (false, 6); (true, 7)]) = true.
Proof.
  assert (H : spotify_mode (debounce_run detector_with_spotify (held [0; 0.25]))
              = true) by (vm_compute; reflexivity).
  split; [ exact H | ].
  exact (proj1 (spotify_mode_is_permanent
                  (debounce_run detector_with_spotify (held [0; 0.25]))
                  [(false, 5); (false, 6); (true, 7)]) H).
Defined.

End DebounceExtras.

(* ===================================================================== *)
(** ** The loop around the debounce machine *)
(* ===================================================================== *)

Section LoopExtras.

Import PerformativeDetector MainLoop.
Local Open Scope float_scope.

Lemma same_holding_state_refl (a : t) : same_holding_state a a.
Proof. unfold same_holding_state. repeat split. Qed.

Lemma same_holding_state_trans (a b c : t) :
  same_holding_state a b -> same_holding_state b c -> same_holding_state a c.
Proof.
  unfold same_holding_state. intros H1 H2. break_hyps.
  repeat split; congruence.
Qed.

(** The debounce update does not read the face-cam bookkeeping. *)
Lemma update_holding_same (a b : t) (signal : bool) (now : float) :
  same_holding_state a b ->
  same_holding_state (fst (update_holding signal now a))
                     (fst (update_holding signal now b))
  /\ snd (update_holding signal now a) = snd (update_holding signal now b).
Proof.
  unfold same_holding_state. intros H. break_hyps.
  destruct a as [ca ha sa ta ma msa da fa ka], b as [cb hb sb tb mb msb db fb kb].
  cbn in *. subst. unfold update_holding.
  cbn [holding_start_time is_holding holding_duration_threshold].
  destruct signal; [ | destruct hb; cbn; repeat split; reflexivity ].
  destruct sb as [start | ]; [ | cbn; repeat split; reflexivity ].
  destruct (gt (now - start) tb); [ | cbn; repeat split; reflexivity ].
  destruct hb; cbn [negb]; [ cbn; repeat split; reflexivity | ].
  cbn [spotify set_spotify_mode_start_time set_spotify_mode set_is_holding].
  destruct (SpotifyController.is_spotify_available cb); cbn;
    repeat split; reflexivity.
Qed.

Lemma update_display_same (now : float) (a : t) :
  same_holding_state (fst (fst (update_display now a))) a.
Proof.
  pose proof (update_display_keeps_holding_state now a) as H. cbn zeta in H.
  unfold same_holding_state. tauto.
Qed.

Lemma step_same (a b : t) (f : Frame) :
  same_holding_state a b ->
  same_holding_state (fst (step a f))
    (fst (update_holding (holding_detected f) (current_time f) b)).
Proof.
  intros H. unfold step.
  destruct (update_holding_same a b (holding_detected f) (current_time f) H)
    as [Hs _].
  destruct (update_holding (holding_detected f) (current_time f) a)
    as [a1 eff1].
  pose proof (update_display_same (current_time f) a1) as Hd.
  destruct (update_display (current_time f) a1) as [[a2 w] eff2].
  cbn [fst snd] in *. eapply same_holding_state_trans; eassumption.
Qed.

(** X18.  The face-cam bookkeeping never feeds back into the debounce
    machine: after any number of iterations the controller, [is_holding], the
    pending time, the threshold, Spotify mode and its start time are what the
    debounce updates alone produce from the per-frame signals and times. *)
Theorem steps_follow_debounce (self : t) (frames : list Frame) :
  same_holding_state (steps self frames)
                     (debounce_run self (map debounce_input frames)).
Proof.
  assert (Hgen : forall a b : t,
             same_holding_state a b ->
             same_holding_state (steps a frames)
                                (debounce_run b (map debounce_input frames))).
  { induction frames as [ | f rest IH]; intros a b H.
    - exact H.
    - cbn [map]. unfold debounce_input at 1. rewrite debounce_run_cons.
      change (steps a (f :: rest)) with (steps (fst (step a f)) rest).
      apply IH. apply step_same. exact H. }
  apply Hgen, same_holding_state_refl.
Qed.

Lemma steps_cons (self : t) (f : Frame) (rest : list Frame) :
  steps self (f :: rest) = steps (fst (step self f)) rest.
Proof. reflexivity. Qed.

(** Turns after which the loop goes on are plain iterations. *)
Lemma run_goes_on (before : list Iteration) :
  forall (self : t) (rest : list Iteration),
    forallb goes_on before = true ->
    run self (before ++ rest)
    = (fst (fst (run (steps self (map frame before)) rest)),
       steps_effects self (map frame before)
       ++ snd (fst (run (steps self (map frame before)) rest)),
       snd (run (steps self (map frame before)) rest)).
Proof.
  induction before as [ | turn before IH]; intros self rest Hgo.
  - cbn. destruct (run self rest) as [[s e] g]. reflexivity.
  - cbn [forallb] in Hgo. apply andb_true_iff in Hgo as [Hturn Hgo].
    unfold goes_on in Hturn.
    apply andb_true_iff in Hturn as [Hturn Hkey].
    apply andb_true_iff in Hturn as [Hopen Hret].
    apply negb_true_iff in Hkey.
    cbn [app run map steps_effects]. rewrite Hopen, Hret, Hkey. cbn [negb].
    rewrite steps_cons.
    destruct (step self (frame turn)) as [self1 eff1]. cbn [fst snd].
    rewrite (IH self1 rest Hgo). rewrite app_assoc. reflexivity.
Qed.

(** X19.  The loop handles the turns in order and is left at the first one
    that ends it.  If that turn finds the capture closed or fails to grab a
    frame, the state is the one after the iterations before it: the turn
    itself changes nothing.  If that turn grabbed a frame and ends with the
    quit key, its frame is still put through a full iteration first.  Either
    way nothing after that turn is looked at.  If no turn ends the loop, the
    loop is still running when the turns run out. *)
Theorem run_until_first_stop (self : t) (before after : list Iteration)
  (stop : Iteration) :
  forallb goes_on before = true ->
  (goes_on stop = false ->
   run self (before ++ stop :: after)
   = if isOpened stop && ret stop
     then (steps self (map frame (before ++ [stop])),
           steps_effects self (map frame (before ++ [stop])), true)
     else (steps self (map frame before),
           steps_effects self (map frame before), true))
  /\ run self before
     = (steps self (map frame before), steps_effects self (map frame before),
        false).
Proof.
  intros Hgo. split.
  - intros Hstop.
    destruct (isOpened stop && ret stop) eqn:Hgrab.
    + replace (before ++ stop :: after) with ((before ++ [stop]) ++ after)
        by (rewrite <- app_assoc; reflexivity).
      apply andb_true_iff in Hgrab as [Hopen Hret].
      assert (Hkey : quit_pressed (waitKey stop) = true).
      { unfold goes_on in Hstop. rewrite Hopen, Hret in Hstop. cbn in Hstop.
        apply negb_false_iff in Hstop. exact Hstop. }
      rewrite <- app_assoc. cbn [app].
      rewrite (run_goes_on before self (stop :: after) Hgo).
      cbn [run]. rewrite Hopen, Hret, Hkey. cbn [negb].
      rewrite !map_app. cbn [map].
      assert (Hsteps : forall (l : list Frame) (s : t) (f : Frame),
                 steps s (l ++ [f]) = fst (step (steps s l) f)
                 /\ steps_effects s (l ++ [f])
                    = steps_effects s l ++ snd (step (steps s l) f)).
      { induction l as [ | g l IHl]; intros s f.
        - cbn. rewrite app_nil_r. split; reflexivity.
        - cbn [app steps_effects]. rewrite !steps_cons.
          destruct (IHl (fst (step s g)) f) as [-> ->].
          rewrite app_assoc. split; reflexivity. }
      destruct (Hsteps (map frame before) self (frame stop)) as [-> ->].
      destruct (step (steps self (map frame before)) (frame stop)) as [s1 e1].
      reflexivity.
    + rewrite (run_goes_on before self (stop :: after) Hgo).
      cbn [run]. apply andb_false_iff in Hgrab as [Hopen | Hret].
      * rewrite Hopen. cbn. rewrite app_nil_r. reflexivity.
      * rewrite Hret. destruct (isOpened stop); cbn; rewrite app_nil_r;
          reflexivity.
  - rewrite <- (app_nil_r before) at 1.
    rewrite (run_goes_on before self [] Hgo). cbn. rewrite app_nil_r.
    reflexivity.
Qed.

(** Two turns that go on, then a turn on which q is pressed, then more. *)
Lemma run_until_first_stop_witness :
  let hand := Some [hand_at {| mp.x := 0.5; mp.y := 0.5 |} []] in
  let turn now key :=
    {| isOpened := true; ret := true;
       frame := {| multi_hand_landmarks := hand; current_time := now |};
       waitKey := key |} in
  forallb goes_on [turn 0 (-1)%Z; turn 0.1 (-1)%Z] = true
  /\ goes_on (turn 0.3 113%Z) = false
  /\ run detector_with_spotify
       ([turn 0 (-1)%Z; turn 0.1 (-1)%Z] ++ turn 0.3 113%Z :: [turn 0.4 (-1)%Z])
     = (steps detector_with_spotify
          (map frame ([turn 0 (-1)%Z; turn 0.1 (-1)%Z] ++ [turn 0.3 113%Z])),
        [call_play_juna; thread_start], true).
Proof.
  intros hand turn.
  assert (Hgo : forallb goes_on [turn 0 (-1)%Z; turn 0.1 (-1)%Z] = true)
    by reflexivity.
  assert (Hstop : goes_on (turn 0.3 113%Z) = false) by reflexivity.
  split; [ exact Hgo | ]. split; [ exact Hstop | ].
  rewrite (proj1 (run_until_first_stop detector_with_spotify
                    [turn 0 (-1)%Z; turn 0.1 (-1)%Z] [turn 0.4 (-1)%Z]
                    (turn 0.3 113%Z) Hgo) Hstop).
  vm_compute. reflexivity.
Defined.

(** X20.  Only the low byte of the key code counts: adding any multiple of
    256 to a code does not change whether it quits, a code quits exactly when
    its remainder modulo 256 is 113, the code of q, and the [-1] of "no key"
    does not quit. *)
Theorem quit_pressed_low_byte (key more : Z) :
  quit_pressed (key + 256 * more) = quit_pressed key
  /\ quit_pressed key = (key mod 256 =? 113)%Z
  /\ quit_pressed (-1) = false.
Proof.
  assert (Hland : forall k : Z, Z.land k 255 = (k mod 256)%Z).
  { intros k. change 255%Z with (Z.ones 8). rewrite Z.land_ones by lia.
    reflexivity. }
  unfold quit_pressed. rewrite !Hland.
  replace ((key + 256 * more) mod 256)%Z with (key mod 256)%Z.
  - repeat split; reflexivity.
  - rewrite Z.mul_comm, Z.mod_add by lia. reflexivity.
Qed.

(** What one iteration emits. *)
Lemma step_effects_shape (self : t) (f : Frame) :
  spotify (fst (step self f)) = spotify self
  /\ count is_request (snd (step self f)) = 0%nat
  /\ (SpotifyController.is_spotify_available (spotify self) = false ->
      count is_call_play_juna (snd (step self f)) = 0%nat
      /\ count is_thread_start (snd (step self f)) = 0%nat).
Proof.
  unfold step.
  pose proof (update_holding_keeps self (holding_detected f) (current_time f))
    as K. cbn zeta in K. destruct K as (Ks & _).
  assert (Heff : snd (update_holding (holding_detected f) (current_time f) self)
                 = [] \/
                 snd (update_holding (holding_detected f) (current_time f) self)
                 = trigger self).
  { destruct (update_holding_cases self (holding_detected f) (current_time f))
      as [(_ & _ & E) | [(_ & _ & E) | [(_ & _ & _ & E) | (_ & E)]]];
      rewrite E; cbn; auto. }
  destruct (update_holding (holding_detected f) (current_time f) self)
    as [self1 eff1]. cbn [fst snd] in *.
  pose proof (update_display_keeps_holding_state (current_time f) self1) as D.
  cbn zeta in D. destruct D as (Ds & _).
  assert (Hdisp : snd (update_display (current_time f) self1) = [] \/
                  snd (update_display (current_time f) self1) = [popen_osascript]).
  { unfold update_display. destruct (spotify_mode self1); [ | cbn; auto ].
    match goal with |- context [if ge ?a ?b then _ else _] => destruct (ge a b) end;
      [ | cbn; auto ].
    match goal with |- context [if ?c then _ else _] => destruct c end; cbn; auto. }
  destruct (update_display (current_time f) self1) as [[self2 w] eff2].
  cbn [fst snd] in *. rewrite !count_app.
  split; [ congruence | ].
  unfold trigger in Heff.
  destruct Heff as [-> | ->], Hdisp as [-> | ->];
    destruct (SpotifyController.is_spotify_available (spotify self));
    cbn; repeat split; intros; try reflexivity; try discriminate.
Qed.

(** X21.  The loop itself never sends a request to Spotify, whatever the
    turns; and with a controller that is not available it never calls
    [play_juna] and never starts a thread. *)
Theorem run_sends_no_request (self : t) (turns : list Iteration) :
  count is_request (snd (fst (run self turns))) = 0%nat
  /\ (SpotifyController.is_spotify_available (spotify self) = false ->
      count is_call_play_juna (snd (fst (run self turns))) = 0%nat
      /\ count is_thread_start (snd (fst (run self turns))) = 0%nat).
Proof.
  revert self. induction turns as [ | turn rest IH]; intros self.
  - cbn. repeat split; reflexivity.
  - cbn [run]. destruct (isOpened turn); cbn [negb];
      [ | cbn; repeat split; reflexivity ].
    destruct (ret turn); cbn [negb]; [ | cbn; repeat split; reflexivity ].
    pose proof (step_effects_shape self (frame turn)) as (Hc & Hr & Hn).
    destruct (step self (frame turn)) as [self1 eff1]. cbn [fst snd] in *.
    destruct (quit_pressed (waitKey turn)); cbn [fst snd].
    + split; [ exact Hr | exact Hn ].
    + specialize (IH self1). destruct IH as [Ir In'].
      destruct (run self1 rest) as [[self2 eff2] gone]. cbn [fst snd] in *.
      rewrite !count_app, Hr, Ir. split; [ reflexivity | ].
      intros Hu. rewrite Hc in In'.
      destruct (Hn Hu) as [-> ->]. destruct (In' Hu) as [-> ->].
      split; reflexivity.
Qed.

Lemma run_sends_no_request_witness :
  SpotifyController.is_spotify_available (spotify detector_without_spotify)
  = false
  /\ count is_call_play_juna
       (snd (fst (run detector_without_spotify
                    (map (fun now =>
                            {| isOpened := true; ret := true;
                               frame :=
                                 {| multi_hand_landmarks :=
                                      Some [hand_at {| mp.x := 0.5; mp.y := 0.5 |} []];
                                    current_time := now |};
                               waitKey := (-1)%Z |})
                         [0; 0.1; 0.3; 0.5])))) = 0%nat.
Proof.
  assert (H : SpotifyController.is_spotify_available
                (spotify detector_without_spotify) = false) by reflexivity.
  split; [ exact H | ].
  apply (proj2 (run_sends_no_request detector_without_spotify _) H).
Defined.

End LoopExtras.

(* ===================================================================== *)
(** ** The status window *)
(* ===================================================================== *)

Section StatusWindowExtras.

Import StatusWindow.

Lemma split_newline_length (s : string) :
  List.length (split_newline s) = S (newlines s).
Proof.
  induction s as [ | c rest IH]; [ reflexivity | ].
  cbn [split_newline newlines]. destruct (Ascii.eqb c newline).
  - cbn [List.length]. rewrite IH. reflexivity.
  - destruct (split_newline rest) as [ | piece pieces]; [ discriminate | ].
    cbn [List.length] in *. lia.
Qed.

(** Joining the pieces with newlines gives the text back. *)
Lemma split_newline_join (s : string) :
  String.concat (String newline EmptyString) (split_newline s) = s.
Proof.
  induction s as [ | c rest IH]; [ reflexivity | ].
  pose proof (split_newline_length rest) as Hlen.
  cbn [split_newline]. destruct (Ascii.eqb_spec c newline) as [-> | Hc].
  - destruct (split_newline rest) as [ | piece pieces]; [ discriminate | ].
    cbn [String.concat String.append] in *. rewrite IH. reflexivity.
  - destruct (split_newline rest) as [ | piece pieces]; [ discriminate | ].
    destruct pieces as [ | next pieces].
    + cbn [String.concat] in *. rewrite IH. reflexivity.
    + cbn [String.concat String.append] in *. rewrite IH. reflexivity.
Qed.

Lemma py_sum_cons (h : Z) (l : list Z) : py_sum (h :: l) = (h + py_sum l)%Z.
Proof.
  unfold py_sum. cbn [fold_left].
  assert (H : forall (m : list Z) (a : Z),
             fold_left Z.add m a = (a + fold_left Z.add m 0)%Z).
  { induction m as [ | x m IHm]; intros a; cbn [fold_left]; [ lia | ].
    rewrite (IHm (a + x)%Z), (IHm (0 + x)%Z). lia. }
  rewrite (H l (0 + h)%Z). lia.
Qed.

Lemma getitem_middle {A B : Type} (f : A -> B) (done : list A) (a : A)
  (rest : list A) :
  getitem (map f (done ++ a :: rest)) (List.length done) = Ok (f a).
Proof.
  unfold getitem. rewrite map_app, nth_error_app2 by (rewrite length_map; lia).
  rewrite length_map, Nat.sub_diag. reflexivity.
Qed.

(** The drawing loop in closed form. *)
Lemma draw_lines_layout (getTextSize : string -> Z * Z) (width : Z)
  (colour : Color) (lines : list string) :
  forall (done : list string) (y : Z),
    draw_lines (map (fun l => fst (getTextSize l)) (done ++ lines))
               (map (fun l => snd (getTextSize l)) (done ++ lines))
               (List.length (done ++ lines)) width colour
               (List.length done) lines y
    = Ok (centred_texts getTextSize width colour
            (combine lines
               (baselines (map (fun l => snd (getTextSize l)) lines) y))).
Proof.
  induction lines as [ | line rest IH]; intros done y; [ reflexivity | ].
  cbn [draw_lines]. rewrite getitem_middle. cbn [bind].
  assert (Hnext :
            (if (Z.of_nat (List.length done)
                 <? Z.of_nat (List.length (done ++ line :: rest)) - 1)%Z
             then bind (getitem (map (fun l => snd (getTextSize l))
                                     (done ++ line :: rest))
                                (List.length done))
                       (fun h => Ok (y + (h + line_spacing))%Z)
             else Ok y)
            = Ok (if (0 <? List.length rest)%nat
                  then (y + (snd (getTextSize line) + line_spacing))%Z
                  else y)).
  { rewrite getitem_middle. cbn [bind]. rewrite length_app. cbn [List.length].
    destruct (Z.ltb_spec (Z.of_nat (List.length done))
                (Z.of_nat (List.length done + S (List.length rest)) - 1));
      destruct (Nat.ltb_spec 0 (List.length rest)); try reflexivity; lia. }
  rewrite Hnext. cbn [bind].
  replace (done ++ line :: rest) with ((done ++ [line]) ++ rest)
    by (rewrite <- app_assoc; reflexivity).
  replace (S (List.length done)) with (List.length (done ++ [line]))
    by (rewrite length_app; cbn; lia).
  rewrite IH. cbn [bind map baselines combine centred_texts flat_map app fst snd].
  destruct rest as [ | line' rest]; reflexivity.
Qed.

(** The whole function in closed form, on a canvas of non-negative size. *)
Lemma create_status_window_layout_closed (getTextSize : string -> Z * Z)
  (message : string) (colour : Color) (width height : Z) :
  (0 <= height)%Z -> (0 <= width)%Z ->
  create_status_window getTextSize message colour width height
  = Ok {| canvas_height := height; canvas_width := width;
          fill := if String.eqb "PERFORMATIVE" message then (40, 50, 30)%Z
                  else (20, 20, 40)%Z;
          texts :=
            centred_texts getTextSize width colour
              (combine (split_newline message)
                 (baselines
                    (map (fun l => snd (getTextSize l)) (split_newline message))
                    ((height
                      - (py_sum (map (fun l => snd (getTextSize l))
                                     (split_newline message))
                         + (Z.of_nat (List.length (split_newline message)) - 1)
                           * line_spacing)) / 2
                     + snd (getTextSize (hd EmptyString (split_newline message))))%Z)) |}.
Proof.
  intros Hh Hw. unfold create_status_window.
  destruct (Z.ltb_spec height 0); [ lia | ].
  destruct (Z.ltb_spec width 0); [ lia | ]. cbn [orb].
  pose proof (split_newline_length message) as Hlen.
  pose proof (draw_lines_layout getTextSize width colour (split_newline message) [])
    as Hdraw. cbn [app List.length] in Hdraw.
  destruct (split_newline message) as [ | line rest] eqn:E; [ discriminate | ].
  cbn [map getitem nth_error bind hd]. rewrite Hdraw. reflexivity.
Qed.

Lemma create_status_window_negative (getTextSize : string -> Z * Z)
  (message : string) (colour : Color) (width height : Z) :
  (height < 0)%Z \/ (width < 0)%Z ->
  create_status_window getTextSize message colour width height
  = Raise ValueError.
Proof.
  unfold create_status_window. intros [Hneg | Hneg].
  - destruct (Z.ltb_spec height 0); [ reflexivity | lia ].
  - destruct (Z.ltb_spec width 0); [ | lia ].
    rewrite orb_true_r. reflexivity.
Qed.

(** X22.  For a canvas of non-negative size [create_status_window] never
    raises, whatever the text and however OpenCV measures it.  The canvas is
    filled with the green tint exactly when the text is "PERFORMATIVE" and
    with the red tint otherwise.  Every line of the text is put on it twice
    at one place, first as a black outline of thickness 20 and then in the
    given colour with thickness 12; the lines come in order, the first
    baseline is the top margin (half of what the block of lines leaves of the
    height) plus the height of the first line, and each further baseline is
    the previous one plus the height of the line before plus 30.  A negative
    height or width raises ValueError. *)
Theorem create_status_window_layout (getTextSize : string -> Z * Z)
  (text : string) (colour : Color) (width height : Z) :
  let lines := split_newline text in
  let heights := map (fun l => snd (getTextSize l)) lines in
  let total_height :=
    (py_sum heights + (Z.of_nat (List.length lines) - 1) * line_spacing)%Z in
  let start_y :=
    ((height - total_height) / 2 + snd (getTextSize (hd EmptyString lines)))%Z in
  ((0 <= height)%Z -> (0 <= width)%Z ->
   create_status_window getTextSize text colour width height
   = Ok {| canvas_height := height; canvas_width := width;
           fill := if String.eqb "PERFORMATIVE" text then (40, 50, 30)%Z
                   else (20, 20, 40)%Z;
           texts := centred_texts getTextSize width colour
                      (combine lines (baselines heights start_y)) |})
  /\ ((height < 0)%Z \/ (width < 0)%Z ->
      create_status_window getTextSize text colour width height
      = Raise ValueError).
Proof.
  cbn zeta. split.
  - intros Hh Hw. apply create_status_window_layout_closed; assumption.
  - apply create_status_window_negative.
Qed.

Lemma create_status_window_layout_witness :
  (0 <= 800)%Z /\ (0 <= 1200)%Z
  /\ create_status_window fixed_pitch
       (String.append "NOT" (String newline "PERFORMATIVE"))
       (0, 0, 255)%Z 1200 800
     = Ok {| canvas_height := 800; canvas_width := 1200;
             fill := (20, 20, 40)%Z;
             texts :=
               [outline_text "NOT" (450, 385)%Z;
                inner_text "NOT" (450, 385)%Z (0, 0, 255)%Z;
                outline_text "PERFORMATIVE" (0, 525)%Z;
                inner_text "PERFORMATIVE" (0, 525)%Z (0, 0, 255)%Z] |}
  /\ create_status_window fixed_pitch "PERFORMATIVE" (100, 200, 100)%Z 1200 (-1)
     = Raise ValueError.
Proof.
  split; [ lia | ]. split; [ lia | ]. split.
  - rewrite (proj1 (create_status_window_layout fixed_pitch
                      (String.append "NOT" (String newline "PERFORMATIVE"))
                      (0, 0, 255)%Z 1200 800)) by lia.
    vm_compute. reflexivity.
  - apply (proj2 (create_status_window_layout fixed_pitch "PERFORMATIVE"
                    (100, 200, 100)%Z 1200 (-1))).
    left. lia.
Defined.

Lemma baselines_length (heights : list Z) :
  forall y : Z, List.length (baselines heights y) = List.length heights.
Proof.
  induction heights as [ | h rest IH]; intros y; [ reflexivity | ].
  cbn [baselines List.length]. rewrite IH. reflexivity.
Qed.

Lemma centred_texts_lines (getTextSize : string -> Z * Z) (width : Z)
  (colour : Color) (lines : list string) :
  forall ys : list Z,
    List.length ys = List.length lines ->
    map StatusWindow.text
        (centred_texts getTextSize width colour (combine lines ys))
    = flat_map (fun l => [l; l]) lines
    /\ List.length (centred_texts getTextSize width colour (combine lines ys))
       = (2 * List.length lines)%nat.
Proof.
  induction lines as [ | line rest IH]; intros ys Hlen.
  - split; reflexivity.
  - destruct ys as [ | y ys]; [ discriminate | ].
    injection Hlen as Hlen. destruct (IH ys Hlen) as [IH1 IH2].
    cbn [combine centred_texts flat_map app map List.length fst snd] in *.
    unfold centred_texts in IH1, IH2. rewrite IH1, IH2.
    split; [ reflexivity | lia ].
Qed.

(** X23.  On a canvas of non-negative size the status window carries two
    texts for each line of the message, one line more than the message has
    newlines, and they are the lines of the message in order, each of them
    twice; joined by newlines the lines give the message back. *)
Theorem create_status_window_draws_each_line_twice
  (getTextSize : string -> Z * Z) (message : string) (colour : Color)
  (width height : Z) :
  (0 <= height)%Z -> (0 <= width)%Z ->
  exists canvas,
    create_status_window getTextSize message colour width height = Ok canvas
    /\ List.length (texts canvas) = (2 * S (newlines message))%nat
    /\ map StatusWindow.text (texts canvas)
       = flat_map (fun l => [l; l]) (split_newline message)
    /\ String.concat (String newline EmptyString) (split_newline message)
       = message.
Proof.
  intros Hh Hw.
  pose proof (create_status_window_layout_closed getTextSize message colour
                width height Hh Hw) as E.
  eexists. split; [ exact E | ]. cbn [texts].
  match goal with
  | |- context [combine ?ls (baselines ?hs ?y)] =>
    destruct (centred_texts_lines getTextSize width colour ls
                (baselines hs y)) as [H1 H2];
      [ rewrite baselines_length, length_map; reflexivity | ]
  end.
  rewrite H1, H2, split_newline_length.
  repeat split. apply split_newline_join.
Qed.

Lemma create_status_window_draws_each_line_twice_witness :
  (0 <= 800)%Z /\ (0 <= 1200)%Z
  /\ exists canvas,
       create_status_window fixed_pitch
         (String.append "NOT" (String newline "PERFORMATIVE"))
         (0, 0, 255)%Z 1200 800 = Ok canvas
       /\ List.length (texts canvas) = 4%nat.
Proof.
  split; [ lia | ]. split; [ lia | ].
  destruct (create_status_window_draws_each_line_twice fixed_pitch
              (String.append "NOT" (String newline "PERFORMATIVE"))
              (0, 0, 255)%Z 1200 800) as (canvas & E & Hn & _); try lia.
  exists canvas. split; [ exact E | exact Hn ].
Defined.

Lemma centred_texts_in (getTextSize : string -> Z * Z) (width : Z)
  (colour : Color) (placed : list (string * Z)) (p : PutText) :
  In p (centred_texts getTextSize width colour placed) ->
  exists line y,
    In (line, y) placed
    /\ StatusWindow.text p = line
    /\ org p = (((width - fst (getTextSize line)) / 2)%Z, y).
Proof.
  unfold centred_texts. intros Hin. apply in_flat_map in Hin.
  destruct Hin as ([line y] & Hplaced & Hp). cbn [fst snd] in Hp.
  exists line, y. split; [ exact Hplaced | ].
  destruct Hp as [<- | [<- | []]]; split; reflexivity.
Qed.

(** X24.  Every text of the status window is centred horizontally: the space
    left of it and the space right of it, as OpenCV measures the line, differ
    by at most one pixel, the extra pixel being on the right. *)
Theorem create_status_window_centres_each_line
  (getTextSize : string -> Z * Z) (message : string) (colour : Color)
  (width height : Z) (canvas : Canvas) (p : PutText) :
  create_status_window getTextSize message colour width height = Ok canvas ->
  In p (texts canvas) ->
  let left_margin := fst (org p) in
  let right_margin :=
    (width - (left_margin + fst (getTextSize (StatusWindow.text p))))%Z in
  (0 <= right_margin - left_margin <= 1)%Z.
Proof.
  intros E Hin.
  destruct (Z.ltb_spec height 0) as [Hh | Hh].
  { rewrite (create_status_window_negative getTextSize message colour
               width height) in E by lia. discriminate. }
  destruct (Z.ltb_spec width 0) as [Hw | Hw].
  { rewrite (create_status_window_negative getTextSize message colour
               width height) in E by lia. discriminate. }
  rewrite (create_status_window_layout_closed getTextSize message colour
             width height Hh Hw) in E.
  injection E as <-. cbn [texts] in Hin.
  apply centred_texts_in in Hin. destruct Hin as (line & y & _ & -> & ->).
  cbn [fst]. cbn zeta.
  pose proof (Z.div_mod (width - fst (getTextSize line)) 2) as Hd.
  pose proof (Z.mod_pos_bound (width - fst (getTextSize line)) 2) as Hm.
  lia.
Qed.

Lemma create_status_window_centres_each_line_witness :
  create_status_window fixed_pitch "NOT" (0, 0, 255)%Z 1201 800
  = Ok {| canvas_height := 800; canvas_width := 1201; fill := (20, 20, 40)%Z;
          texts := [outline_text "NOT" (450, 455)%Z;
                    inner_text "NOT" (450, 455)%Z (0, 0, 255)%Z] |}
  /\ (0 <= (1201 - (450 + 300)) - 450 <= 1)%Z.
Proof.
  assert (E : create_status_window fixed_pitch "NOT" (0, 0, 255)%Z 1201 800
              = Ok {| canvas_height := 800; canvas_width := 1201;
                      fill := (20, 20, 40)%Z;
                      texts := [outline_text "NOT" (450, 455)%Z;
                                inner_text "NOT" (450, 455)%Z (0, 0, 255)%Z] |})
    by (vm_compute; reflexivity).
  split; [ exact E | ].
  apply (create_status_window_centres_each_line fixed_pitch "NOT"
           (0, 0, 255)%Z 1201 800 _ (outline_text "NOT" (450, 455)%Z) E).
  left. reflexivity.
Defined.

Lemma baselines_equal_heights (h : Z) (heights : list Z) :
  forall (y b : Z),
    Forall (fun k => k = h) heights ->
    In b (baselines heights y) ->
    exists k : Z,
      (0 <= k < Z.of_nat (List.length heights))%Z
      /\ b = (y + k * (h + line_spacing))%Z.
Proof.
  induction heights as [ | h0 rest IH]; intros y b Hall Hin; [ contradiction | ].
  inversion Hall as [ | ? ? Hh0 Hrest]; subst.
  cbn [baselines] in Hin. destruct Hin as [<- | Hin].
  - exists 0%Z. cbn [List.length]. split; lia.
  - destruct (IH _ _ Hrest Hin) as (k & Hk & ->).
    exists (k + 1)%Z. cbn [List.length]. split; lia.
Qed.

Lemma py_sum_equal_heights (h : Z) (heights : list Z) :
  Forall (fun k => k = h) heights ->
  py_sum heights = (Z.of_nat (List.length heights) * h)%Z.
Proof.
  induction 1 as [ | k rest Hk _ IH]; [ reflexivity | ].
  rewrite py_sum_cons, IH. subst. cbn [List.length]. lia.
Qed.

(** X25.  When OpenCV gives every line the same height [h], the block of
    lines, [n] lines and [n - 1] gaps of 30, is centred vertically: every
    baseline lies between the top of the block plus [h] and the bottom of the
    block, the margin above the block is half of what the block leaves of the
    canvas height, and the margin below is the same or one pixel more. *)
Theorem create_status_window_centres_the_block
  (getTextSize : string -> Z * Z) (message : string) (colour : Color)
  (width height h : Z) (canvas : Canvas) (p : PutText) :
  (0 <= h)%Z ->
  (forall line, In line (split_newline message) -> snd (getTextSize line) = h) ->
  create_status_window getTextSize message colour width height = Ok canvas ->
  In p (texts canvas) ->
  let n := Z.of_nat (List.length (split_newline message)) in
  let block := (n * h + (n - 1) * line_spacing)%Z in
  let top := ((height - block) / 2)%Z in
  let bottom := (top + block)%Z in
  (top + h <= snd (org p) <= bottom)%Z
  /\ (0 <= (height - bottom) - top <= 1)%Z.
Proof.
  intros Hh Hsame E Hin.
  assert (Hall : Forall (fun k => k = h)
                   (map (fun l => snd (getTextSize l)) (split_newline message))).
  { apply Forall_forall. intros k Hk. apply in_map_iff in Hk.
    destruct Hk as (line & <- & Hline). apply Hsame, Hline. }
  assert (Hhd : snd (getTextSize (hd EmptyString (split_newline message))) = h).
  { pose proof (split_newline_length message) as Hlen.
    destruct (split_newline message) as [ | line rest]; [ discriminate | ].
    apply Hsame. left. reflexivity. }
  destruct (Z.ltb_spec height 0) as [Hneg | Hpos].
  { rewrite (create_status_window_negative getTextSize message colour
               width height) in E by lia. discriminate. }
  destruct (Z.ltb_spec width 0) as [Hneg | Hwpos].
  { rewrite (create_status_window_negative getTextSize message colour
               width height) in E by lia. discriminate. }
  rewrite (create_status_window_layout_closed getTextSize message colour
             width height Hpos Hwpos) in E.
  injection E as <-. cbn [texts] in Hin.
  apply centred_texts_in in Hin. destruct Hin as (line & y & Hplaced & _ & ->).
  apply in_combine_r in Hplaced.
  destruct (baselines_equal_heights h _ _ _ Hall Hplaced) as (k & Hk & ->).
  rewrite (py_sum_equal_heights h _ Hall), Hhd in *.
  rewrite length_map in *. cbn zeta. cbn [snd]. unfold line_spacing in *.
  set (n := Z.of_nat (List.length (split_newline message))) in *.
  set (block := (n * h + (n - 1) * 30)%Z).
  pose proof (Z.div_mod (height - block) 2) as Hd.
  pose proof (Z.mod_pos_bound (height - block) 2) as Hm.
  split; [ | lia ].
  assert (Hk1 : (0 <= k * (h + 30) <= (n - 1) * (h + 30))%Z) by nia.
  lia.
Qed.

Lemma create_status_window_centres_the_block_witness :
  (0 <= 110)%Z
  /\ create_status_window fixed_pitch
       (String.append "NOT" (String newline "PERFORMATIVE"))
       (0, 0, 255)%Z 1200 800
     = Ok {| canvas_height := 800; canvas_width := 1200;
             fill := (20, 20, 40)%Z;
             texts :=
               [outline_text "NOT" (450, 385)%Z;
                inner_text "NOT" (450, 385)%Z (0, 0, 255)%Z;
                outline_text "PERFORMATIVE" (0, 525)%Z;
                inner_text "PERFORMATIVE" (0, 525)%Z (0, 0, 255)%Z] |}
  /\ (275 + 110 <= 525 <= 275 + 250)%Z
  /\ (0 <= (800 - (275 + 250)) - 275 <= 1)%Z.
Proof.
  split; [ lia | ].
  assert (E : create_status_window fixed_pitch
                (String.append "NOT" (String newline "PERFORMATIVE"))
                (0, 0, 255)%Z 1200 800
              = Ok {| canvas_height := 800; canvas_width := 1200;
                      fill := (20, 20, 40)%Z;
                      texts :=
                        [outline_text "NOT" (450, 385)%Z;
                         inner_text "NOT" (450, 385)%Z (0, 0, 255)%Z;
                         outline_text "PERFORMATIVE" (0, 525)%Z;
                         inner_text "PERFORMATIVE" (0, 525)%Z (0, 0, 255)%Z] |})
    by (vm_compute; reflexivity).
  split; [ exact E | ].
  exact (create_status_window_centres_the_block fixed_pitch
           (String.append "NOT" (String newline "PERFORMATIVE"))
           (0, 0, 255)%Z 1200 800 110
           {| canvas_height := 800; canvas_width := 1200;
              fill := (20, 20, 40)%Z;
              texts :=
                [outline_text "NOT" (450, 385)%Z;
                 inner_text "NOT" (450, 385)%Z (0, 0, 255)%Z;
                 outline_text "PERFORMATIVE" (0, 525)%Z;
                 inner_text "PERFORMATIVE" (0, 525)%Z (0, 0, 255)%Z] |}
           (outline_text "PERFORMATIVE" (0, 525)%Z)
           ltac:(lia) (fun line _ => eq_refl) E
           (or_intror (or_intror (or_introl eq_refl)))).
Defined.

(** X26.  The status window of the loop reflects the holding state.  It is
    always produced (1200 wide, 800 high).  It has the green tint exactly
    when the machine is holding; it then shows the one line PERFORMATIVE in
    green, and otherwise the two lines NOT and PERFORMATIVE in red, NOT above
    PERFORMATIVE by the height of NOT plus 30. *)
Theorem status_display_reflects_holding (getTextSize : string -> Z * Z)
  (self : PerformativeDetector.t) :
  exists canvas,
    status_display getTextSize self = Ok canvas
    /\ canvas_width canvas = 1200%Z /\ canvas_height canvas = 800%Z
    /\ (fill canvas = (40, 50, 30)%Z
        <-> PerformativeDetector.is_holding self = true)
    /\ map (fun p => (StatusWindow.text p, color p, thickness p)) (texts canvas)
       = (if PerformativeDetector.is_holding self
          then [("PERFORMATIVE"%string, (0, 0, 0)%Z, 20%Z);
                ("PERFORMATIVE"%string, (100, 200, 100)%Z, 12%Z)]
          else [("NOT"%string, (0, 0, 0)%Z, 20%Z);
                ("NOT"%string, (0, 0, 255)%Z, 12%Z);
                ("PERFORMATIVE"%string, (0, 0, 0)%Z, 20%Z);
                ("PERFORMATIVE"%string, (0, 0, 255)%Z, 12%Z)])
    /\ (PerformativeDetector.is_holding self = false ->
        map (fun p => snd (org p)) (texts canvas)
        = let y := snd (org (hd (outline_text "" (0, 0)%Z) (texts canvas))) in
          let below := (y + (snd (getTextSize "NOT"%string) + 30))%Z in
          [y; y; below; below]).
Proof.
  unfold status_display.
  destruct (PerformativeDetector.is_holding self).
  - rewrite create_status_window_layout_closed by lia.
    eexists. split; [ reflexivity | ]. cbn.
    repeat split; intros; try reflexivity; try discriminate.
  - rewrite create_status_window_layout_closed by lia.
    eexists. split; [ reflexivity | ]. cbn.
    repeat split; intros; try reflexivity; try discriminate.
Qed.

End StatusWindowExtras.
